(** * porespy.dns.tortuosity: a shallow embedding and its properties

    The module [porespy/dns/__funcs__.py] holds one function,
    [tortuosity], which glues an image filter (porespy's
    [trim_nonpercolating_paths]), a pore-network library (openpnm) and
    numpy's float64 arithmetic.  The embedding keeps the three layers apart:

    - [Py] and [Np]: the Python and numpy values the function computes with
      itself (unbounded integers as [Z], float64 as Rocq's primitive binary64
      floats, tuples and arrays as lists, dicts as [gmap]);
    - [Effects]: calls into the delegated libraries, as the nodes of a
      program tree whose answers are chosen by the environment;
    - [Dns]: the function, statement by statement; [Traces] and [Examples]
      name the events of its runs and give stand-ins for the libraries to
      run it against.

    [Semantics] and [Runs] then describe the runs of the function, [Spec]
    states its properties and [Witnesses] instantiates them.  [MoreRuns],
    [Extra] and [ExtraWitnesses] do the same for further properties of the
    runs, on the stand-ins of [MoreExamples].

    Not modelled: the warnings numpy issues on a division by zero (the
    quotient is still the IEEE one), integers beyond 63 bits in the
    conversion to float64, and numpy's bound on the number of dimensions
    of an array (an axis of [2^63] or more, which no array lets through
    the check of line 39, is indexed like one below [-2^63]). *)

From Stdlib Require Import ZArith List Lia.
From Stdlib Require Import Floats.PrimFloat Numbers.Cyclic.Int63.Uint63.
From Stdlib Require Floats.FloatOps Floats.FloatAxioms Floats.SpecFloat.
From stdpp Require Import base strings gmap list pretty.

Set Warnings "-inexact-float".
Local Open Scope Z_scope.

(** ** Python values *)

Module Py.

(** A raised exception: its class and its message. *)
Record exn : Type := PyErr { exc_class : string; exc_msg : string }.

Definition Exception (msg : string) : exn := PyErr "Exception" msg.
Definition IndexError (msg : string) : exn := PyErr "IndexError" msg.
Definition KeyError (msg : string) : exn := PyErr "KeyError" msg.
Definition ValueError (msg : string) : exn := PyErr "ValueError" msg.

(** What a keyword argument or a settings entry may hold. *)
Inductive pyval : Type :=
| PyNone
| PyBool (b : bool)
| PyInt (z : Z)
| PyFloat (f : float)
| PyStr (s : string).

(** A [dict] with string keys ([**kwargs], [fd.settings], a phase). *)
Abbreviation dict := (gmap string pyval).

(** [d.update(other)]: the entries of [other] win. *)
Definition dict_update (d other : dict) : dict := other ∪ d.

(** [key in d.keys()]. *)
Definition dict_contains (d : dict) (key : string) : bool :=
  bool_decide (is_Some (d !! key)).

(** The position [seq[i]] reads in a sequence of length [n]: a negative
    index counts from the end, anything outside [-n .. n-1] is an error. *)
Definition normalize_index (n : nat) (i : Z) : option nat :=
  if (0 <=? i) && (i <? Z.of_nat n) then Some (Z.to_nat i)
  else if (- Z.of_nat n <=? i) && (i <? 0) then Some (Z.to_nat (Z.of_nat n + i))
  else None.

(** An integer that fits an index-sized machine integer (CPython's
    [Py_ssize_t], numpy's [intp]): 64 bits, two's complement. *)
Definition fits_index (i : Z) : bool := (- 2 ^ 63 <=? i) && (i <? 2 ^ 63).

(** [t[i]] on a tuple: an integer that is not index-sized is refused
    before the length of the tuple is looked at. *)
Definition tuple_getitem {A : Type} (t : list A) (i : Z) : exn + A :=
  if fits_index i then
    match normalize_index (length t) i with
    | Some k =>
        match t !! k with
        | Some x => inr x
        | None => inl (IndexError "tuple index out of range")
        end
    | None => inl (IndexError "tuple index out of range")
    end
  else inl (IndexError "cannot fit 'int' into an index-sized integer").

End Py.

(** ** numpy values *)

Module Np.
Import Py.

(** int64 -> float64, as numpy converts an integer operand of a true
    division or of a comparison with a float array. *)
Definition float_of_Z (z : Z) : float :=
  if z <? 0 then PrimFloat.opp (PrimFloat.of_uint63 (Uint63.of_Z (- z)))
  else PrimFloat.of_uint63 (Uint63.of_Z z).

(** An n-dimensional array: its shape and its elements in C order. *)
Record ndarray (A : Type) : Type := mk_ndarray {
  shape : list nat;
  data : list A
}.
Arguments mk_ndarray {A} _ _.
Arguments shape {A} _.
Arguments data {A} _.

(** A shape as numpy prints it in its messages: [(3,)], [(2,3)]. *)
Definition shape_string (sh : list nat) : string :=
  match sh with
  | [n] => "(" +:+ pretty n +:+ ",)"
  | _ => "(" +:+ String.concat "," (map pretty sh) +:+ ")"
  end.

(** [a.ndim], [a.size], [np.prod(a.shape)]. *)
Definition ndim {A : Type} (a : ndarray A) : Z := Z.of_nat (length (shape a)).
Definition prod (sh : list nat) : nat := fold_right Nat.mul 1%nat sh.
Definition size {A : Type} (a : ndarray A) : nat := prod (shape a).

(** An array holds as many elements as its shape says. *)
Definition well_formed {A : Type} (a : ndarray A) : Prop :=
  length (data a) = size a.

(** [im.sum()] of a boolean array: the number of [True] voxels. *)
Definition sum (im : ndarray bool) : nat :=
  length (filter (λ b, b = true) (data im)).

(** [im.sum() / im.size]: true division of two integers, in float64. *)
Definition porosity (im : ndarray bool) : float :=
  (float_of_Z (Z.of_nat (sum im)) / float_of_Z (Z.of_nat (size im)))%float.

(** [np.allclose(a, b)] on two float64 scalars, with numpy's default
    [rtol=1e-05], [atol=1e-08] and [equal_nan=False]: finite values are
    compared as [|a - b| <= atol + rtol * |b|], the others with [==]. *)
Definition rtol : float := 1e-05%float.
Definition atol : float := 1e-08%float.

Definition allclose (a b : float) : bool :=
  if PrimFloat.is_finite a && PrimFloat.is_finite b
  then (PrimFloat.abs (a - b) <=? atol + rtol * PrimFloat.abs b)%float
  else (a =? b)%float.

(** [np.zeros([n], dtype=float)]. *)
Definition zeros (n : nat) : list float := replicate n 0%float.

(** [a[0]] on a one-dimensional array. *)
Definition getitem0 (a : list float) : exn + float :=
  match a with
  | x :: _ => inr x
  | [] => inl (IndexError "index 0 is out of bounds for axis 0 with size 0")
  end.

(** [a[idx] = vals] with an integer index array on a one-dimensional
    array: [vals] must have one value per index or a single value for all
    of them, every index must lie in [-n .. n-1], and a later index
    overwrites an earlier equal one. *)
Definition broadcast_values (n : nat) (vals : list float) : option (list float) :=
  if decide (length vals = n) then Some vals
  else match vals with
       | [v] => Some (replicate n v)
       | _ => None
       end.

Fixpoint normalize_indices (n : nat) (idx : list Z) : exn + list nat :=
  match idx with
  | [] => inr []
  | i :: rest =>
      match normalize_index n i with
      | None =>
          inl (IndexError ("index " +:+ pretty i
                           +:+ " is out of bounds for axis 0 with size "
                           +:+ pretty n))
      | Some k =>
          match normalize_indices n rest with
          | inl e => inl e
          | inr ks => inr (k :: ks)
          end
      end
  end.

Fixpoint scatter (a : list float) (ks : list nat) (vals : list float) : list float :=
  match ks, vals with
  | k :: ks', v :: vals' => scatter (<[k := v]> a) ks' vals'
  | _, _ => a
  end.

Definition setitem_fancy (a : list float) (idx : list Z) (vals : list float)
  : exn + list float :=
  match broadcast_values (length idx) vals with
  | None =>
      inl (ValueError ("shape mismatch: value array of shape "
                       +:+ shape_string [length vals]
                       +:+ " could not be broadcast to indexing result of shape "
                       +:+ shape_string [length idx]))
  | Some vs =>
      match normalize_indices (length a) idx with
      | inl e => inl e
      | inr ks => inr (scatter a ks vs)
      end
  end.

(** [np.reshape(a, newshape=sh)] of a one-dimensional array. *)
Definition reshape (a : list float) (sh : list nat) : exn + ndarray float :=
  if decide (length a = prod sh) then inr (mk_ndarray sh a)
  else inl (ValueError ("cannot reshape array of size " +:+ pretty (length a)
                        +:+ " into shape " +:+ shape_string sh)).

(** What numpy says of an index that is no integer, slice or array of
    integers or booleans. *)
Definition invalid_index : exn :=
  IndexError
    ("only integers, slices (`:`), ellipsis (`...`), numpy.newaxis (`None`) "
     +:+ "and integer or boolean arrays are valid indices").

(** A table of coordinates, one row of three columns per pore, and the
    column [coords[:, j]].  A Python integer that does not convert to
    [intp] is not taken as an integer index: numpy makes an array of it,
    which has dtype [object], and refuses that as an index. *)
Definition coords_column (coords : list (float * float * float)) (j : Z)
  : exn + list float :=
  if fits_index j then
    match normalize_index 3 j with
    | Some 0%nat => inr (map (λ r, r.1.1) coords)
    | Some 1%nat => inr (map (λ r, r.1.2) coords)
    | Some _ => inr (map (λ r, r.2) coords)
    | None =>
        inl (IndexError ("index " +:+ pretty j
                         +:+ " is out of bounds for axis 1 with size 3"))
    end
  else inl invalid_index.

End Np.

(** ** The delegated libraries *)

Module Effects.
Import Py Np.

(** A binary image, and an image of float64 values. *)
Abbreviation image := (ndarray bool).
Abbreviation float_image := (ndarray float).

(** An openpnm network built from a template image, as far as the
    function reads it: [net['pore.coords']], one row per pore, and
    [net['pore.template_indices']], the flat index in the template of the
    voxel each pore stands for. *)
Record network : Type := mk_network {
  pore_coords : list (float * float * float);
  pore_template_indices : list Z
}.

(** An openpnm phase: a dict of properties; [phase[key] = v] stores [v]. *)
Record phase : Type := mk_phase { props : dict }.

Definition phase_setitem (ph : phase) (key : string) (v : pyval) : phase :=
  mk_phase (<[key := v]> (props ph)).

(** An openpnm algorithm: its [settings] dict, and the arrays it holds
    under string keys ([fd['pore.concentration']] after a run). *)
Record algorithm : Type := mk_algorithm {
  settings : dict;
  arrays : gmap string (list float)
}.

(** [fd.settings[key] = v] and [fd.settings.update(kw)]. *)
Definition settings_setitem (fd : algorithm) (key : string) (v : pyval) : algorithm :=
  mk_algorithm (<[key := v]> (settings fd)) (arrays fd).
Definition settings_update (fd : algorithm) (kw : dict) : algorithm :=
  mk_algorithm (dict_update (settings fd) kw) (arrays fd).

(** [fd[key]]. *)
Definition algorithm_getitem (fd : algorithm) (key : string) : exn + list float :=
  match arrays fd !! key with
  | Some a => inr a
  | None => inl (KeyError key)
  end.

(** The calls the function delegates, in the order of the source:
    [trim_nonpercolating_paths(im, inlet_axis=, outlet_axis=)] (line 44),
    [logger.warning] with the two numbers its message shows (line 48),
    [op.network.CubicTemplate(template=, spacing=)] (line 51),
    [op.phases.Water(network=)] (line 53),
    [op.algorithms.FickianDiffusion(network=, phase=)] (line 56),
    [fd.set_value_BC(pores=, values=)] (lines 63-64),
    [importlib.util.find_spec] (line 71), [fd.run()] (line 73) and
    [fd.rate(pores=)] (lines 75-76).  A method that changes the object it
    is called on is written as a call that gives the object back. *)
Inductive call : Type :=
| trim_nonpercolating_paths (im : image) (inlet_axis outlet_axis : Z)
| logger_warning (eps filled : float)
| CubicTemplate (template : image) (spacing : Z)
| Water (net : network)
| FickianDiffusion (net : network) (ph : phase)
| set_value_BC (fd : algorithm) (pores : list bool) (values : float)
| find_spec (name : string)
| run (fd : algorithm)
| rate (fd : algorithm) (pores : list bool).

(** What a call gives back, as a Python object. *)
Inductive pyobj : Type :=
| ONone
| OImage (im : image)
| ONetwork (net : network)
| OPhase (ph : phase)
| OAlgorithm (fd : algorithm)
| OFloats (a : list float)
| OSpec (spec : option string).

Definition ret_ty (c : call) : Type :=
  match c with
  | trim_nonpercolating_paths _ _ _ => image
  | logger_warning _ _ => unit
  | CubicTemplate _ _ => network
  | Water _ => phase
  | FickianDiffusion _ _ => algorithm
  | set_value_BC _ _ _ => algorithm
  | find_spec _ => option string
  | run _ => algorithm
  | rate _ _ => list float
  end.

Definition to_pyobj (c : call) : ret_ty c → pyobj :=
  match c with
  | trim_nonpercolating_paths _ _ _ => OImage
  | logger_warning _ _ => λ _, ONone
  | CubicTemplate _ _ => ONetwork
  | Water _ => OPhase
  | FickianDiffusion _ _ => OAlgorithm
  | set_value_BC _ _ _ => OAlgorithm
  | find_spec _ => OSpec
  | run _ => OAlgorithm
  | rate _ _ => OFloats
  end.

(** A call returns or raises. *)
Inductive answer (X : Type) : Type :=
| Ok (x : X)
| Exc (e : exn).
Arguments Ok {X} _.
Arguments Exc {X} _.

(** One delegated call of a run, with what came back. *)
Record event : Type := Ev { ev_call : call; ev_answer : answer pyobj }.

Definition returned (c : call) (x : ret_ty c) : event := Ev c (Ok (to_pyobj c x)).
Definition raised (c : call) (e : exn) : event := Ev c (Exc e).

(** How a run of a function ends. *)
Inductive outcome (A : Type) : Type :=
| Returned (a : A)
| Raised (e : exn).
Arguments Returned {A} _.
Arguments Raised {A} _.

(** Python code with delegated calls: it returns, raises, calls out and
    goes on with the answer, or guards a block with [try ... except]. *)
Inductive prog (A : Type) : Type :=
| Ret (a : A)
| Raise (e : exn)
| Call (c : call) (k : ret_ty c → prog A)
| TryExcept {B : Type} (body : prog B) (handler : exn → prog B)
    (k : B → prog A).
Arguments Ret {A} _.
Arguments Raise {A} _.
Arguments Call {A} _ _.
Arguments TryExcept {A B} _ _ _.

Fixpoint bind {A B : Type} (p : prog A) (f : A → prog B) : prog B :=
  match p with
  | Ret a => f a
  | Raise e => Raise e
  | Call c k => Call c (λ x, bind (k x) f)
  | TryExcept body handler k => TryExcept body handler (λ x, bind (k x) f)
  end.

#[global] Instance prog_bind : MBind prog := λ A B f p, bind p f.
#[global] Instance prog_ret : MRet prog := λ A a, Ret a.

(** A pure step that may raise. *)
Definition lift {A : Type} (r : exn + A) : prog A :=
  match r with
  | inr a => Ret a
  | inl e => Raise e
  end.

Definition perform (c : call) : prog (ret_ty c) := Call c Ret.

(** The runs of a program: the delegated calls in order, each with its
    answer, and the outcome.  The environment is free to answer a call
    with any object of the call's return type, or with any exception. *)
Fixpoint runs {A : Type} (p : prog A) (t : list event) (o : outcome A) : Prop :=
  match p with
  | Ret a => t = [] ∧ o = Returned a
  | Raise e => t = [] ∧ o = Raised e
  | Call c k =>
      (∃ e, t = [raised c e] ∧ o = Raised e)
      ∨ (∃ x t', t = returned c x :: t' ∧ runs (k x) t' o)
  | TryExcept body handler k =>
      (∃ x tb t', runs body tb (Returned x) ∧ t = tb ++ t' ∧ runs (k x) t' o)
      ∨ (∃ e tb th e', runs body tb (Raised e)
           ∧ runs (handler e) th (Raised e') ∧ t = tb ++ th ∧ o = Raised e')
      ∨ (∃ e tb th x t', runs body tb (Raised e)
           ∧ runs (handler e) th (Returned x)
           ∧ t = tb ++ th ++ t' ∧ runs (k x) t' o)
  end.

(** A program without [try ... except]. *)
Fixpoint handler_free {A : Type} (p : prog A) : Prop :=
  match p with
  | Ret _ | Raise _ => True
  | Call c k => ∀ x, handler_free (k x)
  | TryExcept _ _ _ => False
  end.

(** An environment with a state of its own, for running a program. *)
Record env (W : Type) : Type := mk_env {
  respond : ∀ c : call, W → answer (ret_ty c) * W
}.
Arguments respond {W} _ _ _.

Fixpoint exec {W A : Type} (h : env W) (p : prog A) (w : W)
  : outcome A * list event * W :=
  match p with
  | Ret a => (Returned a, [], w)
  | Raise e => (Raised e, [], w)
  | Call c k =>
      match respond h c w with
      | (Exc e, w') => (Raised e, [raised c e], w')
      | (Ok x, w') =>
          let '(o, t, w'') := exec h (k x) w' in (o, returned c x :: t, w'')
      end
  | TryExcept body handler k =>
      match exec h body w with
      | (Returned x, tb, w') =>
          let '(o, t, w'') := exec h (k x) w' in (o, tb ++ t, w'')
      | (Raised e, tb, w') =>
          match exec h (handler e) w' with
          | (Returned x, th, w'') =>
              let '(o, t, w3) := exec h (k x) w'' in (o, tb ++ th ++ t, w3)
          | (Raised e', th, w'') => (Raised e', tb ++ th, w'')
          end
      end
  end.

End Effects.

(** ** porespy.dns *)

Module Dns.
Import Py Np Effects.

(** The [tortuosity_result] tuple; its fields [tortuosity] and [image]
    are [result_tortuosity] and [result_image]. *)
Record tortuosity_result : Type := mk_result {
  result_tortuosity : float;
  effective_porosity : float;
  original_porosity : float;
  formation_factor : float;
  result_image : option float_image
}.

Definition axis_error : exn := Exception "Axis argument is too high".
Definition rate_error : exn :=
  Exception "Something went wrong, inlet and outlet rate do not match".

(** Boundary concentrations. *)
Definition C_in : float := 1.0%float.
Definition C_out : float := 0.0%float.

(** [net['pore.coords'][:, axis] <= 1] and
    [net['pore.coords'][:, axis] >= im.shape[axis]-1]. *)
Definition inlet_mask (net : network) (axis : Z) : exn + list bool :=
  match coords_column (pore_coords net) axis with
  | inl e => inl e
  | inr col => inr (map (λ x, (x <=? float_of_Z 1)%float) col)
  end.

Definition outlet_mask (net : network) (im : image) (axis : Z) : exn + list bool :=
  match coords_column (pore_coords net) axis with
  | inl e => inl e
  | inr col =>
      match tuple_getitem (shape im) axis with
      | inl e => inl e
      | inr L => inr (map (λ x, (float_of_Z (Z.of_nat L - 1) <=? x)%float) col)
      end
  end.

(** Lines 66-72: the solver settings. *)
Definition configure_solver (fd : algorithm) (kwargs : dict) : prog algorithm :=
  if dict_contains kwargs "solver_family" then
    Ret (settings_update fd kwargs)
  else
    let fd := settings_setitem fd "solver_family" (PyStr "scipy") in
    let fd := settings_setitem fd "solver_type" (PyStr "cg") in
    spec ← perform (find_spec "pyamg") ;
    match spec with
    | None => Ret (settings_setitem fd "solver_family" (PyStr "pyamg"))
    | Some _ => Ret fd
    end.

(** Lines 79-83: from the inlet rate to the effective diffusivity, with
    [L = im.shape[axis]]. *)
Definition Deff (im : image) (L : nat) (rate_in : float) : float :=
  let delta_C := (C_in - C_out)%float in
  let A := (float_of_Z (Z.of_nat (prod (shape im))) / float_of_Z (Z.of_nat L))%float in
  let N_A := (A / float_of_Z (Z.of_nat L) * delta_C)%float in
  (rate_in / N_A)%float.

(** Lines 96-102: the concentration image. *)
Definition concentration_image (im : image) (net : network) (fd : algorithm)
  (return_im : bool) : exn + option float_image :=
  if return_im then
    match algorithm_getitem fd "pore.concentration" with
    | inl e => inl e
    | inr values =>
        match setitem_fancy (zeros (size im)) (pore_template_indices net) values with
        | inl e => inl e
        | inr conc =>
            match reshape conc (shape im) with
            | inl e => inl e
            | inr conc => inr (Some conc)
            end
        end
    end
  else inr None.

(** What lines 42-76 leave behind for the rest of the function: the two
    porosities, the trimmed image (the source rebinds [im] to it), the
    network, the algorithm after [fd.run()], the two masks and the two
    rates. *)
Record simulation : Type := mk_simulation {
  sim_eps0 : float;
  sim_eps : float;
  sim_im : image;
  sim_net : network;
  sim_fd : algorithm;
  sim_inlets : list bool;
  sim_outlets : list bool;
  sim_rate_out : float;
  sim_rate_in : float
}.

(** Lines 42-76: trim, build the network, set the boundary conditions,
    configure and run the solver, read the two rates. *)
Definition simulate (im : image) (axis : Z) (kwargs : dict) : prog simulation :=
  let eps0 := porosity im in
  im ← perform (trim_nonpercolating_paths im axis axis) ;
  let eps := porosity im in
  (if (eps <? eps0)%float
   then perform (logger_warning eps (eps0 - eps)%float)
   else Ret tt) ;;
  net ← perform (CubicTemplate im 1) ;
  water ← perform (Water net) ;
  let water := phase_setitem water "throat.diffusive_conductance" (PyInt 1) in
  fd ← perform (FickianDiffusion net water) ;
  inlets ← lift (inlet_mask net axis) ;
  outlets ← lift (outlet_mask net im axis) ;
  fd ← perform (set_value_BC fd inlets C_in) ;
  fd ← perform (set_value_BC fd outlets C_out) ;
  fd ← configure_solver fd kwargs ;
  fd ← perform (run fd) ;
  rates_out ← perform (rate fd outlets) ;
  rate_out ← lift (getitem0 rates_out) ;
  rates_in ← perform (rate fd inlets) ;
  rate_in ← lift (getitem0 rates_in) ;
  Ret {| sim_eps0 := eps0; sim_eps := eps; sim_im := im; sim_net := net;
         sim_fd := fd; sim_inlets := inlets; sim_outlets := outlets;
         sim_rate_out := rate_out; sim_rate_in := rate_in |}.

(** Lines 77-103: the balance of the two rates, then the result. *)
Definition reduce (s : simulation) (axis : Z) (return_im : bool)
  : exn + tortuosity_result :=
  let im := sim_im s in
  let eps := sim_eps s in
  let rate_in := sim_rate_in s in
  if negb (allclose (- sim_rate_out s)%float rate_in) then inl rate_error else
  match tuple_getitem (shape im) axis with
  | inl e => inl e
  | inr L =>
      let tau := (eps / Deff im L rate_in)%float in
      match concentration_image im (sim_net s) (sim_fd s) return_im with
      | inl e => inl e
      | inr image =>
          inr {| result_tortuosity := tau;
                 formation_factor := (float_of_Z 1 / Deff im L rate_in)%float;
                 original_porosity := sim_eps0 s;
                 effective_porosity := eps;
                 result_image := image |}
      end
  end.

Definition tortuosity (im : image) (axis : Z) (return_im : bool) (kwargs : dict)
  : prog tortuosity_result :=
  if axis >? ndim im - 1 then Raise axis_error else
  s ← simulate im axis kwargs ;
  lift (reduce s axis return_im).

End Dns.

(** ** The events of a run, and the voxels of a network *)

Module Traces.
Import Py Np Effects Dns.

(** The warning of lines 47-49. *)
Definition warning_events (eps eps0 : float) : list event :=
  if (eps <? eps0)%float
  then [returned (logger_warning eps (eps0 - eps)%float) tt]
  else [].

(** The algorithm lines 68-72 leave when ['solver_family'] is not a
    keyword argument, [spec] being what [find_spec] returned. *)
Definition default_solver (fd : algorithm) (spec : option string) : algorithm :=
  let fd := settings_setitem fd "solver_family" (PyStr "scipy") in
  let fd := settings_setitem fd "solver_type" (PyStr "cg") in
  match spec with
  | None => settings_setitem fd "solver_family" (PyStr "pyamg")
  | Some _ => fd
  end.

(** The calls of a run of [simulate] that gets as far as [fd.run()]. *)
Definition setup_events (im im' : image) (axis : Z) (net : network)
    (water : phase) (fd0 fd1 fd2 : algorithm) (inlets outlets : list bool)
  : list event :=
  returned (trim_nonpercolating_paths im axis axis) im'
  :: warning_events (porosity im') (porosity im)
  ++ [returned (CubicTemplate im' 1) net;
      returned (Water net) water;
      returned (FickianDiffusion net
                  (phase_setitem water "throat.diffusive_conductance" (PyInt 1)))
               fd0;
      returned (set_value_BC fd0 inlets C_in) fd1;
      returned (set_value_BC fd1 outlets C_out) fd2].



End Traces.

(** ** Stand-ins for the libraries, to run the function on small images *)

Module Examples.
Import Py Np Effects Dns.

(** What a stand-in answers: the trimmed image (or an exception), the
    module spec of pyamg if it is installed, the concentrations the
    solver finds and the rate it reports through a set of pores. *)
Record library : Type := mk_library {
  lib_trim : image → answer image;
  lib_pyamg : option string;
  lib_concentration : list float;
  lib_rate : list bool → list float
}.

(** The flat indices of the [True] voxels. *)
Fixpoint true_indices (k : nat) (voxels : list bool) : list nat :=
  match voxels with
  | [] => []
  | b :: rest => (if b then [k] else []) ++ true_indices (S k) rest
  end.

(** The network of a two-dimensional template with unit spacing: one
    pore per [True] voxel, at the centre of the voxel. *)
Definition network_of (im : image) : network :=
  let columns := nth 1 (shape im) 1%nat in
  let ks := true_indices 0 (data im) in
  mk_network
    (map (λ k, ((float_of_Z (Z.of_nat (k / columns)) + 0.5)%float,
                (float_of_Z (Z.of_nat (k mod columns)) + 0.5)%float,
                0.5%float)) ks)
    (map Z.of_nat ks).

Definition library_env (l : library) : env unit :=
  mk_env unit (λ c w,
    (match c return answer (ret_ty c) with
     | trim_nonpercolating_paths im _ _ => lib_trim l im
     | logger_warning _ _ => Ok tt
     | CubicTemplate im _ => Ok (network_of im)
     | Water _ => Ok (mk_phase ∅)
     | FickianDiffusion _ _ => Ok (mk_algorithm ∅ ∅)
     | set_value_BC fd _ _ => Ok fd
     | find_spec _ => Ok (lib_pyamg l)
     | run fd =>
         Ok (mk_algorithm (settings fd)
               (<["pore.concentration" := lib_concentration l]> (arrays fd)))
     | rate _ pores => Ok (lib_rate l pores)
     end, w)).

Definition outcome_of {A : Type} (r : outcome A * list event * unit) : outcome A := r.1.1.
Definition trace_of {A : Type} (r : outcome A * list event * unit) : list event := r.1.2.

(** A 3 x 5 image with three open columns, each a straight channel along
    axis 0. *)
Definition stripes : image :=
  mk_ndarray [3; 5]%nat
    [true; false; true; false; true;
     true; false; true; false; true;
     true; false; true; false; true].

(** The exact solution on [stripes]: concentration 1, 1/2 and 0 on the
    three rows, and a rate of 1/2 through each channel. *)
Definition stripes_library : library :=
  mk_library Ok (Some "pyamg")
    [1; 1; 1; 0.5; 0.5; 0.5; 0; 0; 0]%float
    (λ pores, match pores with
              | true :: _ => [1.5%float]
              | _ => [(-1.5)%float]
              end).

(** The same image with a solver whose two rates do not balance. *)
Definition leaky_library : library :=
  mk_library Ok (Some "pyamg")
    [1; 1; 1; 0.5; 0.5; 0.5; 0; 0; 0]%float
    (λ pores, match pores with
              | true :: _ => [1.5%float]
              | _ => [(-1.25)%float]
              end).

(** A filter that fails. *)
Definition failing_trim : exn := PyErr "RuntimeError" "filter failed".
Definition broken_library : library :=
  mk_library (λ _, Exc failing_trim) None [] (λ _, []).

(** No pyamg on the path. *)
Definition bare_library : library :=
  mk_library Ok None
    [1; 1; 1; 0.5; 0.5; 0.5; 0; 0; 0]%float
    (lib_rate stripes_library).

(** Runs on [stripes] along axis 0, with the image asked for and no
    keyword argument: the calls, and what lines 42-76 and the whole
    function give with the exact solution. *)
Definition stripes_trace (l : library) : list event :=
  trace_of (exec (library_env l) (tortuosity stripes 0 true ∅) tt).

Definition stripes_inlets : list bool :=
  [true; true; true; false; false; false; false; false; false].
Definition stripes_outlets : list bool :=
  [false; false; false; false; false; false; true; true; true].

Definition configured_fd : algorithm :=
  mk_algorithm
    (<["solver_type" := PyStr "cg"]> (<["solver_family" := PyStr "scipy"]> ∅)) ∅.

Definition solved_fd : algorithm :=
  mk_algorithm (settings configured_fd)
    (<["pore.concentration" := lib_concentration stripes_library]> ∅).

Definition stripes_simulation (rate_out : float) : simulation :=
  {| sim_eps0 := porosity stripes; sim_eps := porosity stripes;
     sim_im := stripes; sim_net := network_of stripes; sim_fd := solved_fd;
     sim_inlets := stripes_inlets; sim_outlets := stripes_outlets;
     sim_rate_out := rate_out; sim_rate_in := 1.5%float |}.

Definition stripes_concentration : float_image :=
  mk_ndarray [3; 5]%nat
    [1; 0; 1; 0; 1;
     0.5; 0; 0.5; 0; 0.5;
     0; 0; 0; 0; 0]%float.

Definition stripes_result : tortuosity_result :=
  {| result_tortuosity := 0.66666666666666674%float;
     effective_porosity := 0.59999999999999998%float;
     original_porosity := 0.59999999999999998%float;
     formation_factor := 1.1111111111111112%float;
     result_image := Some stripes_concentration |}.

(** A fully open 3 x 2 slab and its exact solution: two channels of two
    unit throats each, so a rate of 1/2 through each. *)
Definition slab : image :=
  mk_ndarray [3; 2]%nat [true; true; true; true; true; true].

Definition slab_library : library :=
  mk_library Ok (Some "pyamg")
    [1; 1; 0.5; 0.5; 0; 0]%float
    (λ pores, match pores with
              | true :: _ => [1%float]
              | _ => [(-1)%float]
              end).

(** A guarded call, as [try: find_spec(name) except: None] would be. *)
Definition guarded_find_spec (name : string) : prog (option string) :=
  TryExcept (perform (find_spec name)) (λ _, Ret None) Ret.

Definition no_importlib : env unit :=
  mk_env unit (λ c w,
    match c return answer (ret_ty c) * unit with
    | find_spec _ => (Exc (PyErr "ImportError" "no importlib"), w)
    | c => respond (library_env stripes_library) c w
    end).

End Examples.

(** ** More stand-ins for the libraries *)

Module MoreExamples.
Import Py Np Effects Dns Traces Examples.

(** The calls of a run of [tortuosity] against a stand-in. *)
Definition calls_of (l : library) (im : image) (axis : Z) (kwargs : dict)
  : list event :=
  trace_of (exec (library_env l) (tortuosity im axis false kwargs) tt).

(** Keyword arguments with and without ['solver_family']. *)
Definition family_kwargs : dict := {["solver_family" := PyStr "pypardiso"]}.
Definition tol_kwargs : dict := {["tol" := PyFloat 1e-06]}.

(** [stripes] without its image in the result. *)
Definition stripes_numbers : tortuosity_result :=
  {| result_tortuosity := result_tortuosity stripes_result;
     effective_porosity := effective_porosity stripes_result;
     original_porosity := original_porosity stripes_result;
     formation_factor := formation_factor stripes_result;
     result_image := None |}.

(** A solver that reports NaN through the outlets, and one that reports
    no rate at all. *)
Definition nan_library : library :=
  mk_library Ok (Some "pyamg")
    (lib_concentration stripes_library)
    (λ pores, match pores with
              | true :: _ => [1.5%float]
              | _ => [nan]
              end).

Definition silent_library : library :=
  mk_library Ok (Some "pyamg") (lib_concentration stripes_library) (λ _, []).

(** An algorithm that keeps no ['pore.concentration'] after its run. *)
Definition hollow_env : env unit :=
  mk_env unit (λ c w,
    match c return answer (ret_ty c) * unit with
    | run fd => (Ok fd, w)
    | c => respond (library_env stripes_library) c w
    end).

Definition hollow_simulation : simulation :=
  {| sim_eps0 := porosity stripes; sim_eps := porosity stripes;
     sim_im := stripes; sim_net := network_of stripes; sim_fd := configured_fd;
     sim_inlets := stripes_inlets; sim_outlets := stripes_outlets;
     sim_rate_out := (-1.5)%float; sim_rate_in := 1.5%float |}.

(** A 3 x 3 image with one channel along axis 0 and a voxel that touches
    the inlet face only, the image the filter makes of it, and the exact
    solution on that. *)
Definition dead_end : image :=
  mk_ndarray [3; 3]%nat
    [true; false; true;
     true; false; false;
     true; false; false].

Definition dead_end_trimmed : image :=
  mk_ndarray [3; 3]%nat
    [true; false; false;
     true; false; false;
     true; false; false].

Definition dead_end_library : library :=
  mk_library (λ _, Ok dead_end_trimmed) (Some "pyamg")
    [1; 0.5; 0]%float
    (λ pores, match pores with
              | true :: _ => [0.5%float]
              | _ => [(-0.5)%float]
              end).

(** An image without voxels, and a solver that reports a rate of zero. *)
Definition void : image := mk_ndarray [0; 2]%nat [].

Definition void_library : library :=
  mk_library Ok (Some "pyamg") [] (λ _, [0%float]).

(** The run on the fully open [slab] along axis 0: its calls, those
    between the first and the last, and the inlet pores and the algorithm
    of the last one, [fd.rate(pores=inlets)]. *)
Definition slab_trace : list event := calls_of slab_library slab 0 ∅.
Definition slab_inner_calls : list event := removelast (tail slab_trace).
Definition slab_inlets : list bool := [true; true; false; false; false; false].
Definition slab_solved_fd : algorithm :=
  mk_algorithm (settings configured_fd)
    (<["pore.concentration" := lib_concentration slab_library]> ∅).

(** A fully open [L x W] slab and the exact solution of its unit lattice
    along axis 0: [W] channels of [L - 1] unit throats in series, so a
    rate of [1 / (L - 1)] through each, and a concentration that falls
    linearly from row to row. *)
Definition open_slab (L W : nat) : image :=
  mk_ndarray [L; W] (replicate (L * W) true).

Definition lattice_rate (L W : nat) : float :=
  (float_of_Z (Z.of_nat W) / float_of_Z (Z.of_nat (L - 1)))%float.

Definition lattice_library (L W : nat) : library :=
  mk_library Ok (Some "pyamg")
    (flat_map
       (λ i, replicate W (float_of_Z (Z.of_nat (L - 1 - i))
                          / float_of_Z (Z.of_nat (L - 1)))%float)
       (seq 0 L))
    (λ pores, match pores with
              | true :: _ => [lattice_rate L W]
              | _ => [(- lattice_rate L W)%float]
              end).

(** The tortuosity the function returns on an open slab, if it returns. *)
Definition open_slab_result (L W : nat) : option float :=
  match outcome_of (exec (library_env (lattice_library L W))
                      (tortuosity (open_slab L W) 0 false ∅) tt) with
  | Returned r => Some (result_tortuosity r)
  | Raised _ => None
  end.

(** The calls of the run on [stripes] against [hollow_env]. *)
Definition hollow_trace : list event :=
  trace_of (exec hollow_env (tortuosity stripes 0 true ∅) tt).

End MoreExamples.

(** ** Runs of programs *)

Module Semantics.
Import Py Np Effects.

Lemma to_pyobj_inj (c : call) (x y : ret_ty c) :
  to_pyobj c x = to_pyobj c y → x = y.
Proof.
  destruct c; simpl in *; try congruence.
  intros _. by destruct x, y.
Qed.

Lemma returned_inj (c : call) (x y : ret_ty c) :
  returned c x = returned c y → x = y.
Proof.
  unfold returned. intros H. apply to_pyobj_inj. congruence.
Qed.

Lemma returned_not_raised (c c' : call) (x : ret_ty c) (e : exn) :
  returned c x ≠ raised c' e.
Proof. unfold returned, raised. congruence. Qed.

Lemma runs_perform (c : call) (t : list event) (o : outcome (ret_ty c)) :
  runs (perform c) t o →
  (∃ e, t = [raised c e] ∧ o = Raised e)
  ∨ (∃ x, t = [returned c x] ∧ o = Returned x).
Proof.
  simpl. intros [(e & -> & ->) | (x & t' & -> & -> & ->)]; eauto.
Qed.

Lemma runs_lift {A : Type} (r : exn + A) (t : list event) (o : outcome A) :
  runs (lift r) t o →
  t = [] ∧ o = match r with inl e => Raised e | inr a => Returned a end.
Proof. destruct r; simpl; tauto. Qed.

(** A run of [p ≫= f] is a run of [p] that raises, or a run of [p] that
    returns followed by a run of [f]. *)
Lemma runs_bind {A B : Type} (p : prog A) (f : A → prog B)
    (t : list event) (o : outcome B) :
  runs (bind p f) t o →
  (∃ e, runs p t (Raised e) ∧ o = Raised e)
  ∨ (∃ x t1 t2, runs p t1 (Returned x) ∧ t = t1 ++ t2 ∧ runs (f x) t2 o).
Proof.
  revert B f t o.
  induction p as [A a | A e | A c k IH | A C body _ handler _ k IH];
    intros B f t o; simpl.
  - intros H. right. exists a, [], t. auto.
  - intros [-> ->]. left. eauto.
  - intros [(e & -> & ->) | (x & t' & -> & H)].
    + left. exists e. split; [left|]; eauto.
    + destruct (IH x B f t' o H) as [(e & He & ->) | (y & t1 & t2 & Hy & -> & Hf)].
      * left. exists e. split; [right|]; eauto.
      * right. exists y, (returned c x :: t1), t2. split; [right|]; eauto.
  - intros [(x & tb & t' & Hb & -> & H)
           | [(e & tb & th & e' & Hb & Hh & -> & ->)
             | (e & tb & th & x & t' & Hb & Hh & -> & H)]].
    + destruct (IH x B f t' o H) as [(e & He & ->) | (y & t1 & t2 & Hy & -> & Hf)].
      * left. exists e. split; [left|]; eauto 10.
      * right. exists y, (tb ++ t1), t2. rewrite app_assoc.
        split; [left|]; eauto 10.
    + left. exists e'. split; [right; left|]; eauto 10.
    + destruct (IH x B f t' o H) as [(e0 & He & ->) | (y & t1 & t2 & Hy & -> & Hf)].
      * left. exists e0. split; [right; right|]; eauto 12.
      * right. exists y, (tb ++ th ++ t1), t2.
        rewrite <- !app_assoc. split; [right; right|]; eauto 12.
Qed.

Lemma handler_free_bind {A B : Type} (p : prog A) (f : A → prog B) :
  handler_free p → (∀ x, handler_free (f x)) → handler_free (bind p f).
Proof.
  revert B f.
  induction p as [A a | A e | A c k IH | A C body _ handler _ k IH];
    intros B f Hp Hf; simpl in *; auto.
Qed.

(** Without [try ... except], the calls and their answers decide the
    outcome. *)
Lemma runs_deterministic {A : Type} (p : prog A) (t : list event)
    (o o' : outcome A) :
  handler_free p → runs p t o → runs p t o' → o = o'.
Proof.
  revert t o o'.
  induction p as [A a | A e | A c k IH | A C body _ handler _ k IH];
    intros t o o' Hp; simpl in *.
  - intros [_ ->] [_ ->]; done.
  - intros [_ ->] [_ ->]; done.
  - intros [(e & -> & ->) | (x & t' & -> & H)]
           [(e' & He & ->) | (x' & t'' & He & H')].
    + unfold raised in He. congruence.
    + exfalso. inversion He.
    + exfalso. inversion He.
    + inversion He as [[Hx Ht]]. subst t''.
      apply to_pyobj_inj in Hx. subst x'. eauto.
  - done.
Qed.

(** Without [try ... except], an exception raised by a delegated call
    ends the run and is its outcome. *)
Lemma raised_ends_run {A : Type} (p : prog A) (t : list event) (o : outcome A)
    (c : call) (e : exn) :
  handler_free p → runs p t o → raised c e ∈ t →
  o = Raised e ∧ ∃ t0, t = t0 ++ [raised c e].
Proof.
  revert t o.
  induction p as [A a | A e0 | A c0 k IH | A C body _ handler _ k IH];
    intros t o Hp; simpl in *.
  - intros [-> _] Hin. by apply elem_of_nil in Hin.
  - intros [-> _] Hin. by apply elem_of_nil in Hin.
  - intros [(e' & -> & ->) | (x & t' & -> & H)] Hin.
    + apply list_elem_of_singleton in Hin. inversion Hin; subst.
      split; [done|]. by exists [].
    + apply elem_of_cons in Hin as [Hin | Hin].
      * by apply symmetry, returned_not_raised in Hin.
      * destruct (IH x t' o (Hp x) H Hin) as [-> [t0 ->]].
        split; [done|]. by exists (returned c0 x :: t0).
  - done.
Qed.

(** Running against an environment gives a run. *)
Lemma exec_runs {W A : Type} (h : env W) (p : prog A) (w : W) :
  runs p (exec h p w).1.2 (exec h p w).1.1.
Proof.
  revert w.
  induction p as [A a | A e | A c k IH | A C body IHb handler IHh k IH];
    intros w; simpl.
  - done.
  - done.
  - destruct (respond h c w) as [[x | e] w'] eqn:Hr; simpl.
    + right. specialize (IH x w').
      destruct (exec h (k x) w') as [[o t] w'']. simpl in *. eauto.
    + left. eauto.
  - specialize (IHb w).
    destruct (exec h body w) as [[[x | e] tb] w'] eqn:Hb; simpl in *.
    + specialize (IH x w').
      destruct (exec h (k x) w') as [[o t] w'']. simpl in *.
      left. eauto 10.
    + specialize (IHh e w').
      destruct (exec h (handler e) w') as [[[x | e'] th] w''] eqn:Hh; simpl in *.
      * specialize (IH x w'').
        destruct (exec h (k x) w'') as [[o t] w3]. simpl in *.
        right; right. eauto 12.
      * right; left. eauto 12.
Qed.

Lemma exec_runs_eq {W A : Type} (h : env W) (p : prog A) (w w' : W)
    (t : list event) (o : outcome A) :
  exec h p w = (o, t, w') → runs p t o.
Proof. intros H. pose proof (exec_runs h p w) as Hr. by rewrite H in Hr. Qed.

End Semantics.

(** ** Runs of [simulate] and [tortuosity] *)

Module Runs.
Import Py Np Effects Dns Traces Semantics.

(** One statement [x ← p; ...] of a run [H], [p] being a delegated call or
    a pure step: either the statement raised, which leaves a first goal,
    or it gave [x] and the run goes on. *)
Ltac statement_raised H1 :=
  first
    [ apply runs_perform in H1 as [(? & -> & ?) | (? & _ & ?)];
      [simplify_eq | discriminate]
    | apply runs_lift in H1 as [-> H1];
      match type of H1 with
      | _ = match ?r with _ => _ end => destruct r eqn:?; simplify_eq
      end ].

Ltac statement_returned H1 x :=
  let v := fresh "v" in
  first
    [ apply runs_perform in H1 as [(? & _ & ?) | (v & -> & H1)];
      [discriminate|]; injection H1 as ->; rename v into x
    | apply runs_lift in H1 as [-> H1];
      match type of H1 with
      | _ = match ?r with _ => _ end =>
          destruct r as [|v] eqn:?; [discriminate|];
          injection H1 as ->; rename v into x
      end ].

Tactic Notation "statement" hyp(H) "as" ident(x) :=
  unfold mbind, prog_bind in H;
  let H1 := fresh "Hstep" in
  apply runs_bind in H as [(? & H1 & ?) | (? & ? & ? & H1 & -> & H)];
  [ statement_raised H1 | statement_returned H1 x ].

(** The same in a run that returns. *)
Tactic Notation "returning" "statement" hyp(H) "as" ident(x) :=
  unfold mbind, prog_bind in H;
  let H1 := fresh "Hstep" in
  apply runs_bind in H as [(? & _ & ?) | (? & ? & ? & H1 & -> & H)];
  [ discriminate | statement_returned H1 x ].

(** The last event of an explicit trace is in it. *)
Ltac last_in_trace :=
  simpl;
  repeat first
    [ apply list_elem_of_here
    | apply list_elem_of_further
    | apply elem_of_app; right ].

(** An event that is not in an explicit trace. *)
Ltac not_in_trace :=
  intros; unfold setup_events, warning_events, returned, raised in *;
  repeat match goal with
    | |- _ ∉ _ => intros ?
    | H : _ ∈ _ ++ _ |- _ => apply elem_of_app in H; destruct H as [H | H]
    | H : _ ∈ _ :: _ |- _ => apply elem_of_cons in H; destruct H as [H | H]
    | H : _ ∈ [] |- _ => apply elem_of_nil in H; contradiction
    | H : _ ∈ (if ?b then _ else _) |- _ => destruct b
    | H : Ev _ _ = Ev _ _ |- _ => discriminate H
    end.

(** Where an event is in an explicit trace. *)
Ltac event_cases :=
  unfold setup_events, warning_events, returned, raised in *;
  repeat match goal with
    | H : _ ∈ _ ++ _ |- _ => apply elem_of_app in H; destruct H as [H | H]
    | H : _ ∈ _ :: _ |- _ => apply elem_of_cons in H; destruct H as [H | H]
    | H : _ ∈ [] |- _ => apply elem_of_nil in H; contradiction
    | H : _ ∈ (if ?b then _ else _) |- _ => destruct b
    | H : Ev _ _ = Ev _ _ |- _ =>
        first [ discriminate H | injection H as ? ?; simplify_eq ]
    end.

Lemma runs_warning (eps eps0 : float) (t : list event) (o : outcome unit) :
  runs (if (eps <? eps0)%float
        then perform (logger_warning eps (eps0 - eps)%float)
        else Ret tt) t o →
  (t = warning_events eps eps0 ∧ o = Returned tt)
  ∨ (∃ e, t = [raised (logger_warning eps (eps0 - eps)%float) e] ∧ o = Raised e).
Proof.
  unfold warning_events. destruct (eps <? eps0)%float.
  - intros [(e & -> & ->) | ([] & -> & ->)]%runs_perform; eauto.
  - simpl. intros [-> ->]. auto.
Qed.

(** Lines 66-72, as runs. *)
Lemma runs_configure_solver (fd : algorithm) (kwargs : dict)
    (t : list event) (o : outcome algorithm) :
  runs (configure_solver fd kwargs) t o →
  if dict_contains kwargs "solver_family" then
    t = [] ∧ o = Returned (settings_update fd kwargs)
  else
    (∃ e, t = [raised (find_spec "pyamg") e] ∧ o = Raised e)
    ∨ (∃ spec, t = [returned (find_spec "pyamg") spec]
         ∧ o = Returned (default_solver fd spec)).
Proof.
  unfold configure_solver, default_solver.
  destruct (dict_contains kwargs "solver_family"); simpl.
  - tauto.
  - intros [(e & -> & ->) | (spec & t' & -> & H)]; [eauto|].
    right. exists spec. destruct spec; simpl in H; destruct H as [-> ->]; done.
Qed.

Lemma configure_solver_no_run (fd : algorithm) (kwargs : dict)
    (t : list event) (o : outcome algorithm) :
  runs (configure_solver fd kwargs) t o → ∀ fd' a, Ev (run fd') a ∉ t.
Proof.
  intros H%runs_configure_solver.
  destruct (dict_contains kwargs "solver_family").
  - destruct H as [-> _]. not_in_trace.
  - destruct H as [(? & -> & _) | (? & -> & _)]; not_in_trace.
Qed.

(** The trace of a run of [simulate], piece by piece. *)
Lemma trace_assoc (e1 : event) (tw : list event) (e2 e3 e4 e5 e6 : event)
    (rest : list event) :
  [e1] ++ tw ++ [e2] ++ [e3] ++ [e4] ++ [] ++ [] ++ [e5] ++ [e6] ++ rest
  = (e1 :: tw ++ [e2; e3; e4; e5; e6]) ++ rest.
Proof. simpl. by rewrite <- app_assoc. Qed.

(** A run of [simulate] that returns: every call returned, both masks
    could be computed and both rate arrays had a first element. *)
Lemma simulate_returned (im : image) (axis : Z) (kwargs : dict)
    (t : list event) (s : simulation) :
  runs (simulate im axis kwargs) t (Returned s) →
  ∃ im' net water fd0 fd1 fd2 inlets outlets tc fd3 fd4 rates_out rates_in
    rate_out rate_in,
    t = setup_events im im' axis net water fd0 fd1 fd2 inlets outlets
        ++ tc
        ++ [returned (run fd3) fd4;
            returned (rate fd4 outlets) rates_out;
            returned (rate fd4 inlets) rates_in]
    ∧ inlet_mask net axis = inr inlets
    ∧ outlet_mask net im' axis = inr outlets
    ∧ runs (configure_solver fd2 kwargs) tc (Returned fd3)
    ∧ getitem0 rates_out = inr rate_out
    ∧ getitem0 rates_in = inr rate_in
    ∧ s = {| sim_eps0 := porosity im; sim_eps := porosity im';
             sim_im := im'; sim_net := net; sim_fd := fd4;
             sim_inlets := inlets; sim_outlets := outlets;
             sim_rate_out := rate_out; sim_rate_in := rate_in |}.
Proof.
  intros H. unfold simulate in H.
  returning statement H as im'.
  unfold mbind, prog_bind in H.
  apply runs_bind in H as [(? & _ & ?) | ([] & tw & ? & Hw & -> & H)];
    [discriminate|].
  apply runs_warning in Hw as [[-> _] | (? & _ & ?)]; [|discriminate].
  returning statement H as net.
  returning statement H as water.
  returning statement H as fd0.
  returning statement H as inlets.
  returning statement H as outlets.
  returning statement H as fd1.
  returning statement H as fd2.
  unfold mbind, prog_bind in H.
  apply runs_bind in H as [(? & _ & ?) | (fd3 & tc & ? & Hc & -> & H)];
    [discriminate|].
  returning statement H as fd4.
  returning statement H as rates_out.
  returning statement H as rate_out.
  returning statement H as rates_in.
  returning statement H as rate_in.
  destruct H as [-> H]. injection H as ->.
  exists im', net, water, fd0, fd1, fd2, inlets, outlets, tc, fd3, fd4,
    rates_out, rates_in, rate_out, rate_in.
  repeat split; try done.
  rewrite trace_assoc. unfold setup_events. simpl. by rewrite <- !app_assoc.
Qed.

(** The exceptions of the function's own indexing. *)
Lemma tuple_getitem_error {A : Type} (t : list A) (i : Z) (e : exn) :
  tuple_getitem t i = inl e → exc_class e = "IndexError".
Proof.
  unfold tuple_getitem. intros H.
  repeat case_match; by simplify_eq.
Qed.

Lemma coords_column_error coords (j : Z) (e : exn) :
  coords_column coords j = inl e → exc_class e = "IndexError".
Proof.
  unfold coords_column. intros H.
  repeat case_match; by simplify_eq.
Qed.

Lemma inlet_mask_error (net : network) (axis : Z) (e : exn) :
  inlet_mask net axis = inl e → exc_class e = "IndexError".
Proof.
  unfold inlet_mask. intros H. case_match; simplify_eq.
  eauto using coords_column_error.
Qed.

Lemma outlet_mask_error (net : network) (im : image) (axis : Z) (e : exn) :
  outlet_mask net im axis = inl e → exc_class e = "IndexError".
Proof.
  unfold outlet_mask. intros H. repeat case_match; simplify_eq;
    eauto using coords_column_error, tuple_getitem_error.
Qed.

Lemma getitem0_error (a : list float) (e : exn) :
  getitem0 a = inl e → exc_class e = "IndexError".
Proof. destruct a; simpl; intros H; by simplify_eq. Qed.

(** A run of [simulate] that raises: a delegated call raised, or one of
    the function's index expressions did. *)
Lemma simulate_raised (im : image) (axis : Z) (kwargs : dict)
    (t : list event) (e : exn) :
  runs (simulate im axis kwargs) t (Raised e) →
  (∃ c, raised c e ∈ t) ∨ exc_class e = "IndexError".
Proof.
  intros H. unfold simulate in H.
  statement H as im'; [left; eexists; last_in_trace|].
  unfold mbind, prog_bind in H.
  apply runs_bind in H as [(? & Hw & ?) | ([] & tw & ? & Hw & -> & H)].
  { apply runs_warning in Hw as [[_ ?] | (? & -> & ?)]; simplify_eq.
    left; eexists; last_in_trace. }
  apply runs_warning in Hw as [[-> _] | (? & _ & ?)]; [|discriminate].
  statement H as net; [left; eexists; last_in_trace|].
  statement H as water; [left; eexists; last_in_trace|].
  statement H as fd0; [left; eexists; last_in_trace|].
  statement H as inlets; [eauto using inlet_mask_error|].
  statement H as outlets; [eauto using outlet_mask_error|].
  statement H as fd1; [left; eexists; last_in_trace|].
  statement H as fd2; [left; eexists; last_in_trace|].
  unfold mbind, prog_bind in H.
  apply runs_bind in H as [(? & Hc & ?) | (fd3 & tc & ? & Hc & -> & H)].
  { apply runs_configure_solver in Hc.
    destruct (dict_contains kwargs "solver_family").
    - destruct Hc; simplify_eq.
    - destruct Hc as [(? & -> & ?) | (? & _ & ?)]; simplify_eq.
      left; eexists; last_in_trace. }
  statement H as fd4; [left; eexists; last_in_trace|].
  statement H as rates_out; [left; eexists; last_in_trace|].
  statement H as rate_out; [eauto using getitem0_error|].
  statement H as rates_in; [left; eexists; last_in_trace|].
  statement H as rate_in; [eauto using getitem0_error|].
  destruct H; simplify_eq.
Qed.

Lemma lift_handler_free {A : Type} (r : exn + A) : handler_free (lift r).
Proof. by destruct r. Qed.

Lemma configure_solver_handler_free (fd : algorithm) (kwargs : dict) :
  handler_free (configure_solver fd kwargs).
Proof.
  unfold configure_solver. destruct (dict_contains kwargs "solver_family");
    simpl; [done|]. by intros [].
Qed.

Lemma simulate_handler_free (im : image) (axis : Z) (kwargs : dict) :
  handler_free (simulate im axis kwargs).
Proof.
  unfold simulate, mbind, prog_bind.
  repeat (apply handler_free_bind; [|intros]);
    try apply lift_handler_free;
    try apply configure_solver_handler_free;
    try case_match; by simpl.
Qed.

Lemma tortuosity_handler_free (im : image) (axis : Z) (return_im : bool)
    (kwargs : dict) :
  handler_free (tortuosity im axis return_im kwargs).
Proof.
  unfold tortuosity. case_match; [done|].
  unfold mbind, prog_bind. apply handler_free_bind.
  - apply simulate_handler_free.
  - intros s. apply lift_handler_free.
Qed.

(** A run of [simulate] either stops before [fd.run()] or has made the
    setup calls, configured the solver and called [fd.run()] once. *)
Lemma simulate_reaches_run (im : image) (axis : Z) (kwargs : dict)
    (t : list event) (o : outcome simulation) :
  runs (simulate im axis kwargs) t o →
  (∀ fd a, Ev (run fd) a ∉ t)
  ∨ ∃ im' net water fd0 fd1 fd2 inlets outlets tc fd3 a rest,
      t = setup_events im im' axis net water fd0 fd1 fd2 inlets outlets
          ++ tc ++ Ev (run fd3) a :: rest
      ∧ runs (configure_solver fd2 kwargs) tc (Returned fd3)
      ∧ (∀ fd a', Ev (run fd) a' ∉ tc)
      ∧ (∀ fd a', Ev (run fd) a' ∉ rest).
Proof.
  intros H. unfold simulate in H.
  statement H as im'; [left; not_in_trace|].
  unfold mbind, prog_bind in H.
  apply runs_bind in H as [(? & Hw & ?) | ([] & tw & ? & Hw & -> & H)].
  { apply runs_warning in Hw as [[_ ?] | (? & -> & ?)]; simplify_eq.
    left; not_in_trace. }
  apply runs_warning in Hw as [[-> _] | (? & _ & ?)]; [|discriminate].
  statement H as net; [left; not_in_trace|].
  statement H as water; [left; not_in_trace|].
  statement H as fd0; [left; not_in_trace|].
  statement H as inlets; [left; not_in_trace|].
  statement H as outlets; [left; not_in_trace|].
  statement H as fd1; [left; not_in_trace|].
  statement H as fd2; [left; not_in_trace|].
  unfold mbind, prog_bind in H.
  apply runs_bind in H as [(? & Hc & ?) | (fd3 & tc & ? & Hc & -> & H)].
  { apply runs_configure_solver in Hc.
    destruct (dict_contains kwargs "solver_family").
    - destruct Hc; simplify_eq.
    - destruct Hc as [(? & -> & ?) | (? & _ & ?)]; simplify_eq.
      left; not_in_trace. }
  pose proof (configure_solver_no_run _ _ _ _ Hc) as Htc.
  right.
  assert (Hgoal : ∀ a rest,
    (∀ fd a', Ev (run fd) a' ∉ rest) →
    ∃ im'0 net0 water0 fd00 fd10 fd20 inlets0 outlets0 tc0 fd30 a0 rest0,
      [returned (trim_nonpercolating_paths im axis axis) im'] ++
      warning_events (porosity im') (porosity im) ++
      [returned (CubicTemplate im' 1) net] ++ [returned (Water net) water] ++
      [returned (FickianDiffusion net
         (phase_setitem water "throat.diffusive_conductance" (PyInt 1))) fd0] ++
      [] ++ [] ++ [returned (set_value_BC fd0 inlets C_in) fd1] ++
      [returned (set_value_BC fd1 outlets C_out) fd2] ++ tc
      ++ Ev (run fd3) a :: rest
      = setup_events im im'0 axis net0 water0 fd00 fd10 fd20 inlets0 outlets0
          ++ tc0 ++ Ev (run fd30) a0 :: rest0
      ∧ runs (configure_solver fd20 kwargs) tc0 (Returned fd30)
      ∧ (∀ fd a', Ev (run fd) a' ∉ tc0)
      ∧ (∀ fd a', Ev (run fd) a' ∉ rest0)).
  { intros a rest Hrest.
    exists im', net, water, fd0, fd1, fd2, inlets, outlets, tc, fd3, a, rest.
    split; [|done]. by rewrite trace_assoc. }
  statement H as fd4; [apply Hgoal; not_in_trace|].
  statement H as rates_out; [apply Hgoal; not_in_trace|].
  statement H as rate_out; [apply Hgoal; not_in_trace|].
  statement H as rates_in; [apply Hgoal; not_in_trace|].
  statement H as rate_in; [apply Hgoal; not_in_trace|].
  destruct H as [-> ?]. apply Hgoal; not_in_trace.
Qed.




(** *** Index arrays *)





Lemma scatter_length (a : list float) (ks : list nat) (vs : list float) :
  length (scatter a ks vs) = length a.
Proof.
  revert a vs. induction ks as [|k ks IH]; intros a [|v vs]; simpl; try done.
  by rewrite IH, length_insert.
Qed.



(** *** The concentration image *)

Lemma normalize_indices_error (n : nat) (idx : list Z) (e : exn) :
  normalize_indices n idx = inl e → exc_class e = "IndexError".
Proof.
  induction idx as [|i idx IH]; simpl; intros H; [done|].
  repeat case_match; simplify_eq; eauto.
Qed.

Lemma concentration_image_error (im : image) (net : network) (fd : algorithm)
    (return_im : bool) (e : exn) :
  concentration_image im net fd return_im = inl e →
  exc_class e ≠ "Exception".
Proof.
  unfold concentration_image, algorithm_getitem, setitem_fancy, reshape.
  intros H. repeat case_match; simplify_eq; try done.
  match goal with
  | H : normalize_indices _ _ = inl _ |- _ =>
      apply normalize_indices_error in H; by rewrite H
  end.
Qed.



(** *** Lines 77-103 *)

Lemma reduce_returned (s : simulation) (axis : Z) (return_im : bool)
    (r : tortuosity_result) :
  reduce s axis return_im = inr r →
  allclose (- sim_rate_out s)%float (sim_rate_in s) = true
  ∧ ∃ L img,
      tuple_getitem (shape (sim_im s)) axis = inr L
      ∧ concentration_image (sim_im s) (sim_net s) (sim_fd s) return_im = inr img
      ∧ r = {| result_tortuosity :=
                 (sim_eps s / Deff (sim_im s) L (sim_rate_in s))%float;
               formation_factor :=
                 (float_of_Z 1 / Deff (sim_im s) L (sim_rate_in s))%float;
               original_porosity := sim_eps0 s;
               effective_porosity := sim_eps s;
               result_image := img |}.
Proof.
  unfold reduce. intros H.
  destruct (allclose _ _); simpl in H; [|done].
  split; [done|].
  destruct (tuple_getitem _ _) as [|L]; [done|].
  destruct (concentration_image _ _ _ _) as [|img]; [done|].
  simplify_eq. eauto.
Qed.

Lemma reduce_raised (s : simulation) (axis : Z) (return_im : bool) (e : exn) :
  reduce s axis return_im = inl e →
  (allclose (- sim_rate_out s)%float (sim_rate_in s) = false ∧ e = rate_error)
  ∨ (allclose (- sim_rate_out s)%float (sim_rate_in s) = true
     ∧ exc_class e ≠ "Exception").
Proof.
  unfold reduce. intros H.
  destruct (allclose _ _); simpl in H; [right|left; by simplify_eq].
  split; [done|].
  destruct (tuple_getitem _ _) as [e'|L] eqn:HL.
  - simplify_eq. by rewrite (tuple_getitem_error _ _ _ HL).
  - destruct (concentration_image _ _ _ _) as [e'|img] eqn:Hi; simplify_eq.
    by eapply concentration_image_error.
Qed.

(** *** The whole function *)

Lemma tortuosity_runs (im : image) (axis : Z) (return_im : bool) (kwargs : dict)
    (t : list event) (o : outcome tortuosity_result) :
  runs (tortuosity im axis return_im kwargs) t o →
  (ndim im - 1 < axis ∧ t = [] ∧ o = Raised axis_error)
  ∨ (axis ≤ ndim im - 1
     ∧ ((∃ e, runs (simulate im axis kwargs) t (Raised e) ∧ o = Raised e)
        ∨ (∃ s, runs (simulate im axis kwargs) t (Returned s)
             ∧ o = match reduce s axis return_im with
                   | inl e => Raised e
                   | inr r => Returned r
                   end))).
Proof.
  unfold tortuosity. destruct (axis >? ndim im - 1) eqn:Haxis.
  - simpl. intros [-> ->]. left. split; [lia|done].
  - intros H. right. split; [lia|].
    unfold mbind, prog_bind in H.
    apply runs_bind in H as [(e & H & ->) | (s & t1 & t2 & Hs & -> & H)];
      [eauto|].
    apply runs_lift in H as [-> ->]. rewrite app_nil_r. eauto.
Qed.

Lemma simulate_trace_nonempty (im : image) (axis : Z) (kwargs : dict)
    (t : list event) (o : outcome simulation) :
  runs (simulate im axis kwargs) t o →
  ∃ a t', t = Ev (trim_nonpercolating_paths im axis axis) a :: t'.
Proof.
  unfold simulate, mbind, prog_bind. simpl.
  intros [(e & -> & _) | (x & t' & -> & _)]; unfold raised, returned; eauto.
Qed.

End Runs.

(** ** The definitions on small inputs *)

Module Checks.
Import Py Np Effects Dns Traces Examples.

Example normalize_index_last : normalize_index 3 (-1) = Some 2%nat.
Proof. reflexivity. Qed.

Example normalize_index_outside :
  normalize_index 3 3 = None ∧ normalize_index 3 (-4) = None.
Proof. split; reflexivity. Qed.

Example index_beyond_64_bits :
  tuple_getitem [3; 5]%nat (- 2 ^ 63 - 1)
  = inl (IndexError "cannot fit 'int' into an index-sized integer")
  ∧ tuple_getitem [3; 5]%nat (- 2 ^ 63)
    = inl (IndexError "tuple index out of range")
  ∧ coords_column [] (- 2 ^ 63 - 1) = inl invalid_index
  ∧ coords_column [] (- 2 ^ 63)
    = inl (IndexError
             "index -9223372036854775808 is out of bounds for axis 1 with size 3").
Proof. repeat split; vm_compute; reflexivity. Qed.

Example tuple_getitem_negative :
  tuple_getitem [3; 5]%nat (-1) = inr 5%nat
  ∧ tuple_getitem [3; 5]%nat (-3) = inl (IndexError "tuple index out of range").
Proof. split; reflexivity. Qed.

Example allclose_examples :
  allclose 1.5 1.5 = true
  ∧ allclose 1.25 1.5 = false
  ∧ allclose 1.5000001 1.5 = true
  ∧ allclose infinity infinity = true
  ∧ allclose nan nan = false.
Proof. repeat split; vm_compute; reflexivity. Qed.

Example setitem_fancy_writes :
  setitem_fancy (zeros 4) [0; -1] [1; 2]%float = inr [1; 0; 0; 2]%float
  ∧ setitem_fancy (zeros 4) [0; 3; 0] [7]%float = inr [7; 0; 0; 7]%float
  ∧ setitem_fancy (zeros 4) [1; 1] [1; 2]%float = inr [0; 2; 0; 0]%float.
Proof. repeat split; vm_compute; reflexivity. Qed.

Example setitem_fancy_errors :
  setitem_fancy (zeros 4) [0; 1; 2] [1; 2]%float
  = inl (ValueError
           "shape mismatch: value array of shape (2,) could not be broadcast to indexing result of shape (3,)")
  ∧ setitem_fancy (zeros 4) [0; 4] [1; 2]%float
    = inl (IndexError "index 4 is out of bounds for axis 0 with size 4").
Proof. split; vm_compute; reflexivity. Qed.

Example porosity_stripes : porosity stripes = 0.59999999999999998%float.
Proof. vm_compute. reflexivity. Qed.

Example masks_of_stripes :
  inlet_mask (network_of stripes) 0 = inr stripes_inlets
  ∧ outlet_mask (network_of stripes) stripes 0 = inr stripes_outlets.
Proof. split; vm_compute; reflexivity. Qed.

(** The whole function on [stripes]. *)
Example tortuosity_stripes :
  outcome_of (exec (library_env stripes_library) (tortuosity stripes 0 true ∅) tt)
  = Returned stripes_result.
Proof. vm_compute. reflexivity. Qed.

Example tortuosity_stripes_calls :
  map ev_call (stripes_trace stripes_library)
  = [trim_nonpercolating_paths stripes 0 0;
     CubicTemplate stripes 1;
     Water (network_of stripes);
     FickianDiffusion (network_of stripes)
       (mk_phase {["throat.diffusive_conductance" := PyInt 1]});
     set_value_BC (mk_algorithm ∅ ∅) stripes_inlets 1;
     set_value_BC (mk_algorithm ∅ ∅) stripes_outlets 0;
     find_spec "pyamg";
     run configured_fd;
     rate solved_fd stripes_outlets;
     rate solved_fd stripes_inlets].
Proof. vm_compute. reflexivity. Qed.

(** Axis [-1] of a two-dimensional image reads the last entry of the shape
    and the third coordinate column; axis [-3] has no entry in the shape. *)
Example tortuosity_stripes_last_axis :
  outlet_mask (network_of stripes) stripes (-1)
  = inr [false; false; false; false; false; false; false; false; false]
  ∧ inlet_mask (network_of stripes) (-1)
    = inr [true; true; true; true; true; true; true; true; true].
Proof. split; vm_compute; reflexivity. Qed.

Example tortuosity_stripes_axis_below :
  outcome_of (exec (library_env stripes_library) (tortuosity stripes (-3) true ∅) tt)
  = Raised (IndexError "tuple index out of range").
Proof. vm_compute. reflexivity. Qed.

(** Keyword arguments with and without ['solver_family']. *)
Example configure_with_family :
  exec (library_env bare_library)
    (configure_solver (mk_algorithm ∅ ∅)
       {["solver_family" := PyStr "pypardiso"; "tol" := PyFloat 1e-06]}) tt
  = (Returned
       (mk_algorithm
          {["solver_family" := PyStr "pypardiso"; "tol" := PyFloat 1e-06]} ∅),
     [], tt).
Proof. vm_compute. reflexivity. Qed.

Example configure_without_family :
  exec (library_env bare_library)
    (configure_solver (mk_algorithm ∅ ∅) {["tol" := PyFloat 1e-06]}) tt
  = (Returned
       (mk_algorithm
          {["solver_family" := PyStr "pyamg"; "solver_type" := PyStr "cg"]} ∅),
     [returned (find_spec "pyamg") None], tt).
Proof. vm_compute. reflexivity. Qed.

(** With the exact solution of the unit lattice, the fully open 3 x 2 slab
    comes out at 2/3. *)
Example tortuosity_slab :
  outcome_of (exec (library_env slab_library) (tortuosity slab 0 false ∅) tt)
  = Returned {| result_tortuosity := 0.66666666666666663%float;
                effective_porosity := 1%float;
                original_porosity := 1%float;
                formation_factor := 0.66666666666666663%float;
                result_image := None |}.
Proof. vm_compute. reflexivity. Qed.

(** On open slabs of several sizes the function returns, with the exact
    solution of the unit lattice, [(L - 1) / L] and not 1: lines 80-82
    take [L = im.shape[axis]] as the length over which the concentration
    falls, the inlet and the outlet pores being [L - 1] throats apart. *)
Example tortuosity_open_slabs :
  forallb
    (λ '(L, W),
       match MoreExamples.open_slab_result L W with
       | Some tau =>
           negb (allclose tau 1)
           && allclose tau (float_of_Z (Z.of_nat (L - 1))
                            / float_of_Z (Z.of_nat L))%float
       | None => false
       end)
    [(3, 2); (10, 4); (2, 1); (5, 5); (4, 1); (7, 3)]%nat
  = true.
Proof. vm_compute. reflexivity. Qed.

(** A guarded call gives its handler's value where the bare call raises. *)
Example guarded_call_returns :
  outcome_of (exec no_importlib (guarded_find_spec "pyamg") tt) = Returned None
  ∧ outcome_of (exec no_importlib (perform (find_spec "pyamg")) tt)
    = Raised (PyErr "ImportError" "no importlib")
  ∧ ¬ handler_free (guarded_find_spec "pyamg").
Proof. repeat split; try (vm_compute; reflexivity). by intros []. Qed.

End Checks.

(** ** The properties of [tortuosity] *)

Module Spec.
Import Py Np Effects Dns Traces Semantics Runs.

(** C1.  In every run that returns, the tortuosity is the effective
    porosity divided by the effective diffusivity [rate_in / N_A], where
    [rate_in] is the first element of what the last call,
    [fd.rate(pores=inlets)], returned, [N_A = A / L * (C_in - C_out)],
    [L = im.shape[axis]], [A = np.prod(im.shape) / L], [C_in = 1.0] and
    [C_out = 0.0]; [im] is the image as the source has rebound it, after
    trimming. *)
Theorem tortuosity_formula (im : image) (axis : Z) (return_im : bool)
    (kwargs : dict) (t : list event) (r : tortuosity_result) :
  runs (tortuosity im axis return_im kwargs) t (Returned r) →
  ∃ s L t0 fd rest,
    runs (simulate im axis kwargs) t (Returned s)
    ∧ t = t0 ++ [returned (rate fd (sim_inlets s)) (sim_rate_in s :: rest)]
    ∧ inlet_mask (sim_net s) axis = inr (sim_inlets s)
    ∧ tuple_getitem (shape (sim_im s)) axis = inr L
    ∧ let A := (float_of_Z (Z.of_nat (prod (shape (sim_im s))))
                / float_of_Z (Z.of_nat L))%float in
      let N_A := (A / float_of_Z (Z.of_nat L) * (1.0 - 0.0))%float in
      let D := (sim_rate_in s / N_A)%float in
      result_tortuosity r = (effective_porosity r / D)%float.
Proof.
  intros H.
  apply tortuosity_runs in H as [(_ & _ & ?) | (_ & [(e & _ & ?) | (s & Hs & Hr)])];
    try discriminate.
  destruct (reduce s axis return_im) as [|r'] eqn:Hred; simplify_eq.
  apply reduce_returned in Hred as (_ & L & img & HL & _ & ->).
  pose proof (simulate_returned _ _ _ _ _ Hs) as
    (im' & net & water & fd0 & fd1 & fd2 & inlets & outlets & tc & fd3 & fd4
     & rates_out & rates_in & rate_out & rate_in
     & Ht & Hin & _ & _ & _ & Hrin & ->).
  destruct rates_in as [|x rest]; simpl in Hrin; [discriminate|].
  injection Hrin as ->. subst t.
  eexists _, L,
    (setup_events im im' axis net water fd0 fd1 fd2 inlets outlets ++ tc
     ++ [returned (run fd3) fd4; returned (rate fd4 outlets) rates_out]),
    fd4, rest.
  split; [exact Hs|]. cbn [sim_inlets sim_rate_in sim_net sim_im].
  split; [|by repeat split].
  by rewrite <- !app_assoc.
Qed.

(** C2.  Once both rates have been read, the run raises the rate
    exception when [np.allclose(-rate_out, rate_in)] is false, and ends
    otherwise than with that exception when it is true. *)
Theorem rate_balance_check (im : image) (axis : Z) (return_im : bool)
    (kwargs : dict) (t : list event) (s : simulation)
    (o : outcome tortuosity_result) :
  runs (simulate im axis kwargs) t (Returned s) →
  runs (tortuosity im axis return_im kwargs) t o →
  (allclose (- sim_rate_out s)%float (sim_rate_in s) = false →
   o = Raised rate_error)
  ∧ (allclose (- sim_rate_out s)%float (sim_rate_in s) = true →
     o ≠ Raised rate_error).
Proof.
  intros Hs H.
  apply tortuosity_runs in H
    as [(_ & -> & _) | (_ & [(e & He & _) | (s' & Hs' & ->)])].
  - apply simulate_trace_nonempty in Hs as (? & ? & ?). discriminate.
  - pose proof (runs_deterministic _ _ _ _
                  (simulate_handler_free im axis kwargs) Hs He).
    discriminate.
  - pose proof (runs_deterministic _ _ _ _
                  (simulate_handler_free im axis kwargs) Hs Hs') as Heq.
    simplify_eq.
    destruct (reduce s' axis return_im) as [e|r] eqn:Hred.
    + apply reduce_raised in Hred as [[Hc ->] | [Hc Hcls]]; rewrite Hc.
      * split; [done|discriminate].
      * split; [discriminate|]. intros _ Heq. by simplify_eq.
    + apply reduce_returned in Hred as [Hc _]. rewrite Hc.
      split; [discriminate|]. intros _. discriminate.
Qed.

(** C3.  When [axis > im.ndim - 1] the run raises the axis exception
    without having made any delegated call; and a run that ends with the
    axis exception, none of its delegated calls having raised, is a run
    with [axis > im.ndim - 1]. *)
Theorem axis_check (im : image) (axis : Z) (return_im : bool)
    (kwargs : dict) (t : list event) (o : outcome tortuosity_result) :
  runs (tortuosity im axis return_im kwargs) t o →
  (ndim im - 1 < axis → t = [] ∧ o = Raised axis_error)
  ∧ (o = Raised axis_error → (∀ c e, raised c e ∉ t) → ndim im - 1 < axis).
Proof.
  intros H.
  apply tortuosity_runs in H
    as [(Hax & -> & ->) | (Hax & [(e & He & ->) | (s & Hs & ->)])].
  - done.
  - split; [lia|]. intros Heq Hnone. simplify_eq.
    apply simulate_raised in He as [[c Hc] | Hcls].
    + by apply Hnone in Hc.
    + discriminate.
  - split; [lia|]. intros Heq _.
    destruct (reduce s axis return_im) as [e|r] eqn:Hred; [|discriminate].
    simplify_eq.
    apply reduce_raised in Hred as [[_ ?] | [_ Hcls]]; [discriminate|].
    by destruct Hcls.
Qed.

(** C4.  When [trim_nonpercolating_paths] gives the image back as it was,
    the effective porosity of a returned result equals its original
    porosity, and both are the number of [True] voxels divided by the
    number of voxels. *)
Theorem fully_percolating_porosity (im : image) (axis : Z) (return_im : bool)
    (kwargs : dict) (t t' : list event) (r : tortuosity_result) :
  runs (tortuosity im axis return_im kwargs) t (Returned r) →
  t = returned (trim_nonpercolating_paths im axis axis) im :: t' →
  effective_porosity r = original_porosity r
  ∧ original_porosity r
    = (float_of_Z (Z.of_nat (sum im)) / float_of_Z (Z.of_nat (size im)))%float.
Proof.
  intros H Ht.
  apply tortuosity_runs in H as [(_ & _ & ?) | (_ & [(e & _ & ?) | (s & Hs & Hr)])];
    try discriminate.
  destruct (reduce s axis return_im) as [|r'] eqn:Hred; simplify_eq.
  apply reduce_returned in Hred as (_ & L & img & _ & _ & ->).
  apply simulate_returned in Hs as
    (im' & net & water & fd0 & fd1 & fd2 & inlets & outlets & tc & fd3 & fd4
     & rates_out & rates_in & rate_out & rate_in
     & Ht & _ & _ & _ & _ & _ & ->).
  unfold setup_events in Ht. simpl in Ht.
  injection Ht as Hev _. by subst im'.
Qed.


(** C6, as amended.  In every run that returns, the formation factor is
    [1 / Deff] and the tortuosity is the effective porosity divided by
    the same [Deff], the effective diffusivity of lines 79-83. *)
Theorem formation_factor_formula (im : image) (axis : Z) (return_im : bool)
    (kwargs : dict) (t : list event) (r : tortuosity_result) :
  runs (tortuosity im axis return_im kwargs) t (Returned r) →
  ∃ s L,
    runs (simulate im axis kwargs) t (Returned s)
    ∧ tuple_getitem (shape (sim_im s)) axis = inr L
    ∧ formation_factor r = (1 / Deff (sim_im s) L (sim_rate_in s))%float
    ∧ result_tortuosity r
      = (effective_porosity r / Deff (sim_im s) L (sim_rate_in s))%float.
Proof.
  intros H.
  apply tortuosity_runs in H as [(_ & _ & ?) | (_ & [(e & _ & ?) | (s & Hs & Hr)])];
    try discriminate.
  destruct (reduce s axis return_im) as [|r'] eqn:Hred; simplify_eq.
  apply reduce_returned in Hred as (_ & L & img & HL & _ & ->).
  exists s, L. by repeat split.
Qed.

(** C7.  The fully open 3 x 2 slab along axis 0, when the filter gives
    the image back as it is and [fd.rate(pores=inlets)] answers with the
    exact solution of the unit lattice, a rate of 1 (two channels of two
    unit throats each): the tortuosity returned is 2/3, which is not 1.0
    within the tolerances of [np.allclose]. *)
Theorem open_slab_tortuosity (return_im : bool) (kwargs : dict)
    (t t0 : list event) (fd : algorithm) (pores : list bool)
    (rates : list float) (r : tortuosity_result) :
  runs (tortuosity Examples.slab 0 return_im kwargs) t (Returned r) →
  t = returned (trim_nonpercolating_paths Examples.slab 0 0) Examples.slab
      :: t0 ++ [returned (rate fd pores) (1%float :: rates)] →
  result_tortuosity r = 0.66666666666666663%float
  ∧ allclose (result_tortuosity r) 1 = false.
Proof.
  intros H Ht.
  apply tortuosity_runs in H as [(_ & _ & ?) | (_ & [(e & _ & ?) | (s & Hs & Hr)])];
    try discriminate.
  destruct (reduce s 0 return_im) as [|r'] eqn:Hred; simplify_eq.
  apply reduce_returned in Hred as (_ & L & img & HL & _ & ->).
  apply simulate_returned in Hs as
    (im' & net & water & fd0 & fd1 & fd2 & inlets & outlets & tc & fd3 & fd4
     & rates_out & rates_in & rate_out & rate_in
     & Ht & _ & _ & _ & _ & Hrin & ->).
  cbn [sim_im sim_eps sim_rate_in result_tortuosity] in *.
  assert (Him : im' = Examples.slab).
  { unfold setup_events in Ht. simpl in Ht. injection Ht as Hev _.
    by simplify_eq. }
  assert (Hrate : rates_in = 1%float :: rates).
  { rewrite app_comm_cons in Ht.
    change [returned (run fd3) fd4; returned (rate fd4 outlets) rates_out;
            returned (rate fd4 inlets) rates_in]
      with ([returned (run fd3) fd4; returned (rate fd4 outlets) rates_out]
            ++ [returned (rate fd4 inlets) rates_in]) in Ht.
    rewrite !app_assoc in Ht. apply app_inj_tail in Ht as [_ Ht].
    unfold returned in Ht. by simplify_eq. }
  subst im' rates_in. simpl in Hrin. injection Hrin as <-.
  vm_compute in HL. injection HL as <-.
  split; vm_compute; reflexivity.
Qed.

(** C8.  The function has no [try ... except], and an exception a
    delegated call raises is the last event of the run and its outcome,
    as it was raised. *)
Theorem delegated_exceptions_propagate (im : image) (axis : Z)
    (return_im : bool) (kwargs : dict) (t : list event)
    (o : outcome tortuosity_result) (c : call) (e : exn) :
  runs (tortuosity im axis return_im kwargs) t o →
  raised c e ∈ t →
  handler_free (tortuosity im axis return_im kwargs)
  ∧ o = Raised e
  ∧ ∃ t0, t = t0 ++ [raised c e].
Proof.
  intros H Hin.
  pose proof (tortuosity_handler_free im axis return_im kwargs) as Hfree.
  split; [done|]. by eapply raised_ends_run.
Qed.

(** C9.  The settings [fd.run()] is called with, against those of the
    algorithm as the second [set_value_BC] left it: with
    ['solver_family'] among the keyword arguments, they are updated with
    all keyword arguments; without it, no keyword argument is used,
    ['solver_type'] is ['cg'], and ['solver_family'] is ['pyamg'] when
    [find_spec("pyamg")] returned [None] and ['scipy'] otherwise. *)
Theorem solver_settings (im : image) (axis : Z) (return_im : bool)
    (kwargs : dict) (t : list event) (o : outcome tortuosity_result)
    (fd : algorithm) (a : answer pyobj) :
  runs (tortuosity im axis return_im kwargs) t o →
  Ev (run fd) a ∈ t →
  ∃ fd1 outlets fd2,
    returned (set_value_BC fd1 outlets C_out) fd2 ∈ t
    ∧ arrays fd = arrays fd2
    ∧ if dict_contains kwargs "solver_family" then
        settings fd = kwargs ∪ settings fd2
      else
        ∃ spec,
          returned (find_spec "pyamg") spec ∈ t
          ∧ settings fd !! "solver_family"
            = Some (PyStr (if spec is None then "pyamg" else "scipy"))
          ∧ settings fd !! "solver_type" = Some (PyStr "cg")
          ∧ ∀ key, key ≠ "solver_family" → key ≠ "solver_type" →
              settings fd !! key = settings fd2 !! key.
Proof.
  intros H Hin.
  assert (∃ o', runs (simulate im axis kwargs) t o') as [o' Hs].
  { apply tortuosity_runs in H
      as [(_ & -> & _) | (_ & [(e & He & _) | (s & Hs & _)])]; eauto.
    by apply elem_of_nil in Hin. }
  apply simulate_reaches_run in Hs
    as [Hnone | (im' & net & water & fd0 & fd1 & fd2 & inlets & outlets & tc
                 & fd3 & a0 & rest & -> & Hc & Htc & Hrest)].
  { by apply Hnone in Hin. }
  assert (fd = fd3) as ->.
  { apply elem_of_app in Hin as [Hin | Hin]; [exfalso; not_in_trace|].
    apply elem_of_app in Hin as [Hin | Hin]; [by apply Htc in Hin|].
    apply elem_of_cons in Hin as [Hin | Hin]; [by simplify_eq|].
    by apply Hrest in Hin. }
  exists fd1, outlets, fd2.
  split.
  { unfold setup_events. apply elem_of_app; left.
    apply list_elem_of_further, elem_of_app; right. last_in_trace. }
  apply runs_configure_solver in Hc.
  destruct (dict_contains kwargs "solver_family").
  - destruct Hc as [_ Hc]. by simplify_eq.
  - destruct Hc as [(? & _ & ?) | (spec & -> & Hc)]; [discriminate|].
    simplify_eq. split; [by destruct spec|].
    exists spec.
    split; [apply elem_of_app; right; apply list_elem_of_here|].
    unfold default_solver.
    destruct spec; cbn [settings settings_setitem];
      repeat split; intros; by simplify_map_eq.
Qed.


End Spec.

(** ** The properties on the runs of [Examples] *)

Module Witnesses.
Import Py Np Effects Dns Traces Examples Semantics Runs Spec.

Lemma stripes_returns :
  runs (tortuosity stripes 0 true ∅) (stripes_trace stripes_library)
    (Returned stripes_result).
Proof.
  apply (exec_runs_eq (library_env stripes_library) _ tt tt).
  vm_compute. reflexivity.
Qed.

Lemma stripes_simulated :
  runs (simulate stripes 0 ∅) (stripes_trace stripes_library)
    (Returned (stripes_simulation (-1.5)%float)).
Proof.
  apply (exec_runs_eq (library_env stripes_library) _ tt tt).
  vm_compute. reflexivity.
Qed.

Lemma leaky_simulated :
  runs (simulate stripes 0 ∅) (stripes_trace leaky_library)
    (Returned (stripes_simulation (-1.25)%float)).
Proof.
  apply (exec_runs_eq (library_env leaky_library) _ tt tt).
  vm_compute. reflexivity.
Qed.

Lemma leaky_raises :
  runs (tortuosity stripes 0 true ∅) (stripes_trace leaky_library)
    (Raised rate_error).
Proof.
  apply (exec_runs_eq (library_env leaky_library) _ tt tt).
  vm_compute. reflexivity.
Qed.

Lemma broken_raises :
  runs (tortuosity stripes 0 true ∅)
    [raised (trim_nonpercolating_paths stripes 0 0) failing_trim]
    (Raised failing_trim).
Proof.
  apply (exec_runs_eq (library_env broken_library) _ tt tt).
  vm_compute. reflexivity.
Qed.

Lemma slab_returns :
  runs (tortuosity slab 0 false ∅) MoreExamples.slab_trace
    (Returned {| result_tortuosity := 0.66666666666666663%float;
                 effective_porosity := 1%float;
                 original_porosity := 1%float;
                 formation_factor := 0.66666666666666663%float;
                 result_image := None |}).
Proof.
  apply (exec_runs_eq (library_env slab_library) _ tt tt).
  vm_compute. reflexivity.
Qed.


Lemma stripes_trace_head :
  stripes_trace stripes_library
  = returned (trim_nonpercolating_paths stripes 0 0) stripes
    :: tail (stripes_trace stripes_library).
Proof. vm_compute. reflexivity. Qed.

Lemma stripes_axis_too_high :
  runs (tortuosity stripes 2 false ∅) [] (Raised axis_error).
Proof. by vm_compute. Qed.

Lemma stripes_calls_run :
  Ev (run configured_fd) (Ok (OAlgorithm solved_fd))
  ∈ stripes_trace stripes_library.
Proof. apply (list_elem_of_lookup_2 _ 7). vm_compute. reflexivity. Qed.

(** C1 on [stripes]. *)
Lemma tortuosity_formula_witness :
  runs (tortuosity stripes 0 true ∅) (stripes_trace stripes_library)
    (Returned stripes_result)
  ∧ ∃ s L t0 fd rest,
      runs (simulate stripes 0 ∅) (stripes_trace stripes_library) (Returned s)
      ∧ stripes_trace stripes_library
        = t0 ++ [returned (rate fd (sim_inlets s)) (sim_rate_in s :: rest)]
      ∧ inlet_mask (sim_net s) 0 = inr (sim_inlets s)
      ∧ tuple_getitem (shape (sim_im s)) 0 = inr L
      ∧ let A := (float_of_Z (Z.of_nat (prod (shape (sim_im s))))
                  / float_of_Z (Z.of_nat L))%float in
        let N_A := (A / float_of_Z (Z.of_nat L) * (1.0 - 0.0))%float in
        let D := (sim_rate_in s / N_A)%float in
        result_tortuosity stripes_result
        = (effective_porosity stripes_result / D)%float.
Proof.
  split; [exact stripes_returns|].
  exact (tortuosity_formula stripes 0 true ∅ _ _ stripes_returns).
Defined.

(** C2 on [stripes] with rates that do not balance. *)
Lemma rate_balance_check_witness :
  runs (simulate stripes 0 ∅) (stripes_trace leaky_library)
    (Returned (stripes_simulation (-1.25)%float))
  ∧ runs (tortuosity stripes 0 true ∅) (stripes_trace leaky_library)
      (Raised rate_error)
  ∧ allclose (- (-1.25))%float 1.5%float = false
  ∧ (allclose (- sim_rate_out (stripes_simulation (-1.25)%float))%float
       (sim_rate_in (stripes_simulation (-1.25)%float)) = false →
     @Raised tortuosity_result rate_error = Raised rate_error)
  ∧ (allclose (- sim_rate_out (stripes_simulation (-1.25)%float))%float
       (sim_rate_in (stripes_simulation (-1.25)%float)) = true →
     @Raised tortuosity_result rate_error ≠ Raised rate_error).
Proof.
  split; [exact leaky_simulated|].
  split; [exact leaky_raises|].
  split; [vm_compute; reflexivity|].
  exact (rate_balance_check stripes 0 true ∅ _ _ _ leaky_simulated leaky_raises).
Defined.

(** C3 on [stripes], which has two axes, with [axis = 2]. *)
Lemma axis_check_witness :
  runs (tortuosity stripes 2 false ∅) [] (Raised axis_error)
  ∧ (ndim stripes - 1 < 2 →
     @nil event = [] ∧ @Raised tortuosity_result axis_error = Raised axis_error)
  ∧ (@Raised tortuosity_result axis_error = Raised axis_error →
     (∀ c e, raised c e ∉ @nil event) → ndim stripes - 1 < 2).
Proof.
  split; [exact stripes_axis_too_high|].
  exact (axis_check stripes 2 false ∅ _ _ stripes_axis_too_high).
Defined.

(** C4 on [stripes], which the filter gives back as it is. *)
Lemma fully_percolating_porosity_witness :
  runs (tortuosity stripes 0 true ∅) (stripes_trace stripes_library)
    (Returned stripes_result)
  ∧ stripes_trace stripes_library
    = returned (trim_nonpercolating_paths stripes 0 0) stripes
      :: tail (stripes_trace stripes_library)
  ∧ effective_porosity stripes_result = original_porosity stripes_result
  ∧ original_porosity stripes_result
    = (float_of_Z (Z.of_nat (sum stripes))
       / float_of_Z (Z.of_nat (size stripes)))%float.
Proof.
  split; [exact stripes_returns|].
  split; [exact stripes_trace_head|].
  exact (fully_percolating_porosity stripes 0 true ∅ _ _ _
           stripes_returns stripes_trace_head).
Defined.


(** C6, as amended, on [stripes]. *)
Lemma formation_factor_formula_witness :
  runs (tortuosity stripes 0 true ∅) (stripes_trace stripes_library)
    (Returned stripes_result)
  ∧ ∃ s L,
      runs (simulate stripes 0 ∅) (stripes_trace stripes_library) (Returned s)
      ∧ tuple_getitem (shape (sim_im s)) 0 = inr L
      ∧ formation_factor stripes_result
        = (1 / Deff (sim_im s) L (sim_rate_in s))%float
      ∧ result_tortuosity stripes_result
        = (effective_porosity stripes_result
           / Deff (sim_im s) L (sim_rate_in s))%float.
Proof.
  split; [exact stripes_returns|].
  exact (formation_factor_formula stripes 0 true ∅ _ _ stripes_returns).
Defined.

(** C6 as it was stated fails on [stripes]: the product of the formation
    factor and the effective porosity is not the tortuosity. *)
Lemma formation_factor_product_differs :
  runs (tortuosity stripes 0 true ∅) (stripes_trace stripes_library)
    (Returned stripes_result)
  ∧ formation_factor stripes_result = 1.1111111111111112%float
  ∧ effective_porosity stripes_result = 0.59999999999999998%float
  ∧ result_tortuosity stripes_result = 0.66666666666666674%float
  ∧ (formation_factor stripes_result * effective_porosity stripes_result)%float
    = 0.66666666666666663%float
  ∧ (formation_factor stripes_result * effective_porosity stripes_result)%float
    ≠ result_tortuosity stripes_result.
Proof.
  split; [exact stripes_returns|].
  repeat split; try reflexivity.
  intros H. vm_compute in H. discriminate H.
Qed.

(** C7 on [slab] with the exact solution of its lattice. *)
Lemma open_slab_tortuosity_witness :
  runs (tortuosity slab 0 false ∅) MoreExamples.slab_trace
    (Returned {| result_tortuosity := 0.66666666666666663%float;
                 effective_porosity := 1%float;
                 original_porosity := 1%float;
                 formation_factor := 0.66666666666666663%float;
                 result_image := None |})
  ∧ MoreExamples.slab_trace
    = returned (trim_nonpercolating_paths slab 0 0) slab
      :: MoreExamples.slab_inner_calls
      ++ [returned (rate MoreExamples.slab_solved_fd MoreExamples.slab_inlets)
            [1%float]]
  ∧ 0.66666666666666663%float = 0.66666666666666663%float
  ∧ allclose 0.66666666666666663 1 = false.
Proof.
  assert (Ht : MoreExamples.slab_trace
    = returned (trim_nonpercolating_paths slab 0 0) slab
      :: MoreExamples.slab_inner_calls
      ++ [returned (rate MoreExamples.slab_solved_fd MoreExamples.slab_inlets)
            [1%float]])
    by (vm_compute; reflexivity).
  split; [exact slab_returns|]. split; [exact Ht|].
  exact (open_slab_tortuosity false ∅ _ _ _ _ _ _ slab_returns Ht).
Defined.

(** C8 on [stripes] with a filter that fails. *)
Lemma delegated_exceptions_propagate_witness :
  runs (tortuosity stripes 0 true ∅)
    [raised (trim_nonpercolating_paths stripes 0 0) failing_trim]
    (Raised failing_trim)
  ∧ raised (trim_nonpercolating_paths stripes 0 0) failing_trim
    ∈ [raised (trim_nonpercolating_paths stripes 0 0) failing_trim]
  ∧ handler_free (tortuosity stripes 0 true ∅)
  ∧ @Raised tortuosity_result failing_trim = Raised failing_trim
  ∧ ∃ t0, [raised (trim_nonpercolating_paths stripes 0 0) failing_trim]
          = t0 ++ [raised (trim_nonpercolating_paths stripes 0 0) failing_trim].
Proof.
  split; [exact broken_raises|].
  split; [apply list_elem_of_here|].
  exact (delegated_exceptions_propagate stripes 0 true ∅ _ _ _ _
           broken_raises (list_elem_of_here _ _)).
Defined.

(** C9 on [stripes], without keyword arguments and with pyamg found. *)
Lemma solver_settings_witness :
  runs (tortuosity stripes 0 true ∅) (stripes_trace stripes_library)
    (Returned stripes_result)
  ∧ Ev (run configured_fd) (Ok (OAlgorithm solved_fd))
    ∈ stripes_trace stripes_library
  ∧ ∃ fd1 outlets fd2,
      returned (set_value_BC fd1 outlets C_out) fd2
      ∈ stripes_trace stripes_library
      ∧ arrays configured_fd = arrays fd2
      ∧ if dict_contains (∅ : dict) "solver_family" then
          settings configured_fd = (∅ : dict) ∪ settings fd2
        else
          ∃ spec,
            returned (find_spec "pyamg") spec ∈ stripes_trace stripes_library
            ∧ settings configured_fd !! "solver_family"
              = Some (PyStr (if spec is None then "pyamg" else "scipy"))
            ∧ settings configured_fd !! "solver_type" = Some (PyStr "cg")
            ∧ ∀ key, key ≠ "solver_family" → key ≠ "solver_type" →
                settings configured_fd !! key = settings fd2 !! key.
Proof.
  split; [exact stripes_returns|].
  split; [exact stripes_calls_run|].
  exact (solver_settings stripes 0 true ∅ _ _ _ _
           stripes_returns stripes_calls_run).
Defined.


End Witnesses.

(** ** More on the runs of [tortuosity] *)

Module MoreRuns.
Import Py Np Effects Dns Traces Semantics Runs.

(** *** Building runs *)

Lemma runs_bind_returned {A B : Type} (p : prog A) (f : A → prog B)
    (t1 t2 : list event) (x : A) (o : outcome B) :
  runs p t1 (Returned x) → runs (f x) t2 o → runs (bind p f) (t1 ++ t2) o.
Proof.
  revert B f t1 t2 x o.
  induction p as [A a | A e | A c k IH | A C body _ handler _ k IH];
    intros B f t1 t2 x o; simpl.
  - intros [-> Hx]. injection Hx as ->. done.
  - intros [_ ?]. discriminate.
  - intros [(e & _ & ?) | (y & t' & -> & H)] Hf; [discriminate|].
    right. exists y, (t' ++ t2). split; [done|]. by eapply IH.
  - intros [(y & tb & t' & Hb & -> & H)
           | [(e & tb & th & e' & _ & _ & _ & ?)
             | (e & tb & th & y & t' & Hb & Hh & -> & H)]] Hf; [|discriminate|].
    + left. exists y, tb, (t' ++ t2). rewrite app_assoc.
      split; [done|]. split; [done|]. by eapply IH.
    + right; right. exists e, tb, th, y, (t' ++ t2). rewrite <- !app_assoc.
      split; [done|]. split; [done|]. split; [done|]. by eapply IH.
Qed.

Lemma runs_bind_raised {A B : Type} (p : prog A) (f : A → prog B)
    (t : list event) (e : exn) :
  runs p t (Raised e) → runs (bind p f) t (Raised e).
Proof.
  revert B f t e.
  induction p as [A a | A e0 | A c k IH | A C body _ handler _ k IH];
    intros B f t e; simpl.
  - intros [_ ?]. discriminate.
  - intros [-> He]. by injection He as ->.
  - intros [(e' & -> & He) | (y & t' & -> & H)].
    + injection He as ->. left. eauto.
    + right. exists y, t'. split; [done|]. by apply IH.
  - intros [(y & tb & t' & Hb & -> & H)
           | [(e0 & tb & th & e' & Hb & Hh & -> & He)
             | (e0 & tb & th & y & t' & Hb & Hh & -> & H)]].
    + left. exists y, tb, t'. split; [done|]. split; [done|]. by apply IH.
    + injection He as <-. right; left. exists e0, tb, th, e. done.
    + right; right. exists e0, tb, th, y, t'.
      split; [done|]. split; [done|]. split; [done|]. by apply IH.
Qed.

(** A run of [p ≫= f] with another program in place of [p], or of [f],
    that has the same runs. *)
Lemma runs_bind_first {A B : Type} (p q : prog A) (f : A → prog B)
    (t : list event) (o : outcome B) :
  (∀ t' o', runs p t' o' → runs q t' o') →
  runs (bind p f) t o → runs (bind q f) t o.
Proof.
  intros Hpq [(e & Hp & ->) | (x & t1 & t2 & Hp & -> & Hf)]%runs_bind.
  - apply runs_bind_raised. by apply Hpq.
  - eapply runs_bind_returned; [by apply Hpq|done].
Qed.

Lemma runs_bind_then {A B : Type} (p : prog A) (f g : A → prog B)
    (t : list event) (o : outcome B) :
  (∀ x t' o', runs (f x) t' o' → runs (g x) t' o') →
  runs (bind p f) t o → runs (bind p g) t o.
Proof.
  intros Hfg [(e & Hp & ->) | (x & t1 & t2 & Hp & -> & Hf)]%runs_bind.
  - by apply runs_bind_raised.
  - eapply runs_bind_returned; [done|]. by apply Hfg.
Qed.

(** *** Index ranges *)

Lemma normalize_index_range (n : nat) (i : Z) (k : nat) :
  normalize_index n i = Some k → - Z.of_nat n ≤ i < Z.of_nat n.
Proof.
  unfold normalize_index. intros H.
  repeat case_match; simplify_eq; lia.
Qed.

Lemma normalize_index_in_range (n : nat) (i : Z) :
  - Z.of_nat n ≤ i < Z.of_nat n → is_Some (normalize_index n i).
Proof.
  unfold normalize_index. intros H.
  destruct (Z.leb_spec 0 i), (Z.ltb_spec i (Z.of_nat n)),
    (Z.leb_spec (- Z.of_nat n) i), (Z.ltb_spec i 0); simpl; eauto; lia.
Qed.

Lemma coords_column_range coords (j : Z) (col : list float) :
  coords_column coords j = inr col → -3 ≤ j < 3.
Proof.
  unfold coords_column. intros H.
  destruct (fits_index j); [|done].
  destruct (normalize_index 3 j) as [k|] eqn:Hk; [|done].
  apply normalize_index_range in Hk. lia.
Qed.

Lemma tuple_getitem_range {A : Type} (l : list A) (i : Z) (x : A) :
  tuple_getitem l i = inr x → - Z.of_nat (length l) ≤ i < Z.of_nat (length l).
Proof.
  unfold tuple_getitem. intros H.
  destruct (fits_index i); [|done].
  destruct (normalize_index (length l) i) as [k|] eqn:Hk; [|done].
  by apply normalize_index_range in Hk.
Qed.

Lemma inlet_mask_range (net : network) (axis : Z) (mask : list bool) :
  inlet_mask net axis = inr mask → -3 ≤ axis < 3.
Proof.
  unfold inlet_mask. intros H. case_match; [done|].
  by eapply coords_column_range.
Qed.

Lemma outlet_mask_shape (net : network) (im : image) (axis : Z)
    (mask : list bool) :
  outlet_mask net im axis = inr mask →
  ∃ L, tuple_getitem (shape im) axis = inr L.
Proof.
  unfold outlet_mask. intros H. repeat case_match; simplify_eq. eauto.
Qed.

(** *** The solver configuration *)

Lemma configure_solver_events (fd : algorithm) (kwargs : dict)
    (t : list event) (o : outcome algorithm) :
  runs (configure_solver fd kwargs) t o →
  if dict_contains kwargs "solver_family" then t = []
  else ∃ a, t = [Ev (find_spec "pyamg") a].
Proof.
  intros H%runs_configure_solver.
  destruct (dict_contains kwargs "solver_family").
  - by destruct H.
  - destruct H as [(? & -> & _) | (? & -> & _)]; unfold raised, returned; eauto.
Qed.

(** *** Events of a run of [simulate] *)

(** [find_spec] is called with ["pyamg"] only, and only when
    ['solver_family'] is no keyword argument. *)
Lemma simulate_find_spec (im : image) (axis : Z) (kwargs : dict)
    (t : list event) (o : outcome simulation) (name : string)
    (a : answer pyobj) :
  runs (simulate im axis kwargs) t o →
  Ev (find_spec name) a ∈ t →
  name = "pyamg" ∧ dict_contains kwargs "solver_family" = false.
Proof.
  intros H Hin. unfold simulate in H.
  statement H as im'; [exfalso; event_cases|].
  unfold mbind, prog_bind in H.
  apply runs_bind in H as [(? & Hw & ?) | ([] & tw & ? & Hw & -> & H)].
  { apply runs_warning in Hw as [[_ ?] | (? & -> & ?)]; simplify_eq.
    exfalso; event_cases. }
  apply runs_warning in Hw as [[-> _] | (? & _ & ?)]; [|discriminate].
  statement H as net; [exfalso; event_cases|].
  statement H as water; [exfalso; event_cases|].
  statement H as fd0; [exfalso; event_cases|].
  statement H as inlets; [exfalso; event_cases|].
  statement H as outlets; [exfalso; event_cases|].
  statement H as fd1; [exfalso; event_cases|].
  statement H as fd2; [exfalso; event_cases|].
  unfold mbind, prog_bind in H.
  apply runs_bind in H as [(? & Hc & ?) | (fd3 & tc & ? & Hc & -> & H)];
    apply configure_solver_events in Hc;
    (destruct (dict_contains kwargs "solver_family");
     [rewrite Hc in * | destruct Hc as [a0 Hc]; rewrite Hc in *]);
    clear Hc.
  1,2: by event_cases.
  all: statement H as fd4; [by event_cases|].
  all: statement H as rates_out; [by event_cases|].
  all: statement H as rate_out; [by event_cases|].
  all: statement H as rates_in; [by event_cases|].
  all: statement H as rate_in; [by event_cases|].
  all: destruct H as [-> _]; by event_cases.
Qed.

(** The warning is raised by a call that was made. *)
Lemma runs_warning_cases (eps eps0 : float) (t : list event) (o : outcome unit) :
  runs (if (eps <? eps0)%float
        then perform (logger_warning eps (eps0 - eps)%float)
        else Ret tt) t o →
  ((eps <? eps0)%float = false ∧ t = [] ∧ o = Returned tt)
  ∨ ((eps <? eps0)%float = true
     ∧ ∃ a, t = [Ev (logger_warning eps (eps0 - eps)%float) a]
          ∧ o = match a with Ok _ => Returned tt | Exc e => Raised e end).
Proof.
  destruct (eps <? eps0)%float.
  - intros [(e & -> & ->) | ([] & -> & ->)]%runs_perform; right;
      (split; [done|]); [exists (Exc e) | exists (Ok ONone)]; done.
  - simpl. intros [-> ->]. by left.
Qed.

(** [logger.warning] is called only when the porosity of the image the
    filter returned is below that of the input, and with that porosity and
    the difference. *)
Lemma simulate_warning (im : image) (axis : Z) (kwargs : dict)
    (t : list event) (o : outcome simulation) (eps filled : float)
    (a : answer pyobj) :
  runs (simulate im axis kwargs) t o →
  Ev (logger_warning eps filled) a ∈ t →
  ∃ im' t',
    t = returned (trim_nonpercolating_paths im axis axis) im' :: t'
    ∧ (porosity im' <? porosity im)%float = true
    ∧ eps = porosity im'
    ∧ filled = (porosity im - porosity im')%float.
Proof.
  intros H Hin. unfold simulate in H.
  statement H as im'; [exfalso; event_cases|].
  assert (Hgoal : ∀ tw rest,
    (∀ ev, ev ∈ tw → ev = Ev (logger_warning eps filled) a →
       (porosity im' <? porosity im)%float = true
       ∧ eps = porosity im'
       ∧ filled = (porosity im - porosity im')%float) →
    Ev (logger_warning eps filled) a ∈ tw →
    ∃ im'0 t',
      [returned (trim_nonpercolating_paths im axis axis) im'] ++ tw ++ rest
      = returned (trim_nonpercolating_paths im axis axis) im'0 :: t'
      ∧ (porosity im'0 <? porosity im)%float = true
      ∧ eps = porosity im'0
      ∧ filled = (porosity im - porosity im'0)%float).
  { intros tw rest Htw Hw. eexists im', _. split; [reflexivity|]. eauto. }
  unfold mbind, prog_bind in H.
  apply runs_bind in H as [(? & Hw & ?) | ([] & tw & ? & Hw & -> & H)];
    apply runs_warning_cases in Hw
      as [(Hlt & -> & ?) | (Hlt & a0 & Htw & ?)].
  - discriminate.
  - rewrite Htw in *. clear Htw.
    apply (Hgoal [Ev (logger_warning (porosity im')
                        (porosity im - porosity im')%float) a0] []).
    + intros ev Hev ->. event_cases. done.
    + event_cases. apply list_elem_of_here.
  - exfalso.
    statement H as net; [event_cases|].
    statement H as water; [event_cases|].
    statement H as fd0; [event_cases|].
    statement H as inlets; [event_cases|].
    statement H as outlets; [event_cases|].
    statement H as fd1; [event_cases|].
    statement H as fd2; [event_cases|].
    unfold mbind, prog_bind in H.
    apply runs_bind in H as [(? & Hc & ?) | (fd3 & tc & ? & Hc & -> & H)];
      apply configure_solver_events in Hc;
      (destruct (dict_contains kwargs "solver_family");
       [rewrite Hc in * | destruct Hc as [a1 Hc]; rewrite Hc in *]);
      clear Hc.
    1,2: by event_cases.
    all: statement H as fd4; [by event_cases|].
    all: statement H as rates_out; [by event_cases|].
    all: statement H as rate_out; [by event_cases|].
    all: statement H as rates_in; [by event_cases|].
    all: statement H as rate_in; [by event_cases|].
    all: destruct H as [-> _]; by event_cases.
  - apply Hgoal.
    + intros ev Hev ->. clear Hin H. subst tw. event_cases. done.
    + subst tw.
      apply elem_of_app in Hin as [Hin | Hin]; [exfalso; event_cases|].
      apply elem_of_app in Hin as [Hin | Hin]; [done|].
      exfalso.
      statement H as net; [event_cases|].
      statement H as water; [event_cases|].
      statement H as fd0; [event_cases|].
      statement H as inlets; [event_cases|].
      statement H as outlets; [event_cases|].
      statement H as fd1; [event_cases|].
      statement H as fd2; [event_cases|].
      unfold mbind, prog_bind in H.
      apply runs_bind in H as [(? & Hc & ?) | (fd3 & tc & ? & Hc & -> & H)];
        apply configure_solver_events in Hc;
        (destruct (dict_contains kwargs "solver_family");
         [rewrite Hc in * | destruct Hc as [a1 Hc]; rewrite Hc in *]);
        clear Hc.
      1,2: by event_cases.
      all: statement H as fd4; [by event_cases|].
      all: statement H as rates_out; [by event_cases|].
      all: statement H as rate_out; [by event_cases|].
      all: statement H as rates_in; [by event_cases|].
      all: statement H as rate_in; [by event_cases|].
      all: destruct H as [-> _]; by event_cases.
Qed.

(** An axis outside the three coordinate columns: the run stops at
    [net['pore.coords'][:, axis]] of line 58 at the latest. *)
Lemma inlet_mask_outside (net : network) (axis : Z) :
  ¬ (-3 ≤ axis < 3) →
  ∃ e, inlet_mask net axis = inl e
       ∧ exc_class e = "IndexError"
       ∧ (- 2 ^ 63 ≤ axis < 2 ^ 63 →
          e = IndexError ("index " +:+ pretty axis
                          +:+ " is out of bounds for axis 1 with size 3")).
Proof.
  intros Hax. unfold inlet_mask, coords_column, fits_index.
  destruct (Z.leb_spec (- 2 ^ 63) axis), (Z.ltb_spec axis (2 ^ 63)); simpl;
    try (eexists; split; [reflexivity|]; split; [reflexivity|lia]).
  destruct (normalize_index 3 axis) as [k|] eqn:Hk.
  - apply normalize_index_range in Hk. lia.
  - eauto.
Qed.

Lemma simulate_outside_columns (im : image) (axis : Z) (kwargs : dict)
    (t : list event) (o : outcome simulation) :
  ¬ (-3 ≤ axis < 3) →
  runs (simulate im axis kwargs) t o →
  (∃ e, o = Raised e
     ∧ ((∀ c e', raised c e' ∉ t) →
        exc_class e = "IndexError"
        ∧ (- 2 ^ 63 ≤ axis < 2 ^ 63 →
           e = IndexError ("index " +:+ pretty axis
                           +:+ " is out of bounds for axis 1 with size 3"))))
  ∧ (∀ fd pores values a, Ev (set_value_BC fd pores values) a ∉ t)
  ∧ (∀ fd a, Ev (run fd) a ∉ t).
Proof.
  intros Hax H. unfold simulate in H.
  assert (Hraised : ∀ (t0 : list event) c (e : exn),
    (∀ fd pores values a, Ev (set_value_BC fd pores values) a ∉ t0 ++ [raised c e]) →
    (∀ fd a, Ev (run fd) a ∉ t0 ++ [raised c e]) →
    (∃ e0, @Raised simulation e = Raised e0
       ∧ ((∀ c' e', raised c' e' ∉ t0 ++ [raised c e]) →
          exc_class e0 = "IndexError"
          ∧ (- 2 ^ 63 ≤ axis < 2 ^ 63 →
             e0 = IndexError ("index " +:+ pretty axis
                              +:+ " is out of bounds for axis 1 with size 3"))))
    ∧ (∀ fd pores values a, Ev (set_value_BC fd pores values) a ∉ t0 ++ [raised c e])
    ∧ (∀ fd a, Ev (run fd) a ∉ t0 ++ [raised c e])).
  { intros t0 c e H1 H2. split; [|done]. exists e. split; [done|].
    intros Hn. destruct (Hn c e). apply elem_of_app. right.
    apply list_elem_of_here. }
  statement H as im'; [apply (Hraised []); not_in_trace|].
  unfold mbind, prog_bind in H.
  apply runs_bind in H as [(? & Hw & ?) | ([] & tw & ? & Hw & -> & H)].
  { apply runs_warning in Hw as [[_ ?] | (? & -> & ?)]; simplify_eq.
    apply (Hraised [_]); not_in_trace. }
  apply runs_warning in Hw as [[-> _] | (? & _ & ?)]; [|discriminate].
  statement H as net.
  { rewrite !app_assoc. apply Hraised; not_in_trace. }
  statement H as water.
  { rewrite !app_assoc. apply Hraised; not_in_trace. }
  statement H as fd0.
  { rewrite !app_assoc. apply Hraised; not_in_trace. }
  destruct (inlet_mask_outside net axis Hax) as (e & He & Hclass & Hmsg).
  rewrite He in H.
  unfold mbind, prog_bind in H. simpl in H. destruct H as [-> ->].
  split; [eauto|]. split; not_in_trace.
Qed.

(** An empty array of rates: the run stops at the [[0]] of line 75 or 76. *)
Lemma ends_with_single (ev : event) : ∃ t0, [ev] = t0 ++ [ev].
Proof. by exists []. Qed.

Lemma ends_with_cons (ev ev' : event) (t : list event) :
  (∃ t0, t = t0 ++ [ev]) → ∃ t0, ev' :: t = t0 ++ [ev].
Proof. intros [t0 ->]. by exists (ev' :: t0). Qed.

Lemma ends_with_app (ev : event) (t t' : list event) :
  (∃ t0, t' = t0 ++ [ev]) → ∃ t0, t ++ t' = t0 ++ [ev].
Proof. intros [t0 ->]. exists (t ++ t0). by rewrite app_assoc. Qed.

Ltac ends_with :=
  repeat first
    [ apply ends_with_single | apply ends_with_cons | apply ends_with_app ].

Lemma simulate_empty_rates (im : image) (axis : Z) (kwargs : dict)
    (t : list event) (o : outcome simulation) (fd : algorithm)
    (pores : list bool) :
  runs (simulate im axis kwargs) t o →
  returned (rate fd pores) [] ∈ t →
  o = Raised (IndexError "index 0 is out of bounds for axis 0 with size 0")
  ∧ ∃ t0, t = t0 ++ [returned (rate fd pores) []].
Proof.
  intros H Hin. unfold simulate in H.
  statement H as im'; [exfalso; event_cases|].
  unfold mbind, prog_bind in H.
  apply runs_bind in H as [(? & Hw & ?) | ([] & tw & ? & Hw & -> & H)].
  { apply runs_warning in Hw as [[_ ?] | (? & -> & ?)]; simplify_eq.
    exfalso; event_cases. }
  apply runs_warning in Hw as [[-> _] | (? & _ & ?)]; [|discriminate].
  statement H as net; [exfalso; event_cases|].
  statement H as water; [exfalso; event_cases|].
  statement H as fd0; [exfalso; event_cases|].
  statement H as inlets; [exfalso; event_cases|].
  statement H as outlets; [exfalso; event_cases|].
  statement H as fd1; [exfalso; event_cases|].
  statement H as fd2; [exfalso; event_cases|].
  unfold mbind, prog_bind in H.
  apply runs_bind in H as [(? & Hc & ?) | (fd3 & tc & ? & Hc & -> & H)];
    apply configure_solver_events in Hc;
    (destruct (dict_contains kwargs "solver_family");
     [rewrite Hc in * | destruct Hc as [a1 Hc]; rewrite Hc in *]);
    clear Hc.
  1,2: exfalso; event_cases.
  all: statement H as fd4; [exfalso; event_cases|].
  all: statement H as rates_out; [exfalso; event_cases|].
  all: statement H as rate_out;
    [event_cases; simplify_eq/=; (split; [done|]); ends_with|].
  all: statement H as rates_in; [exfalso; event_cases; simplify_eq/=|].
  all: statement H as rate_in;
    [event_cases; simplify_eq/=; (split; [done|]); ends_with|].
  all: exfalso; destruct H as [-> _]; event_cases; simplify_eq/=.
Qed.

(** Keyword arguments without ['solver_family'] change nothing. *)
Lemma configure_solver_ignores (fd : algorithm) (kw1 kw2 : dict) :
  dict_contains kw1 "solver_family" = false →
  dict_contains kw2 "solver_family" = false →
  configure_solver fd kw1 = configure_solver fd kw2.
Proof. unfold configure_solver. by intros -> ->. Qed.

Lemma simulate_ignores (im : image) (axis : Z) (kw1 kw2 : dict)
    (t : list event) (o : outcome simulation) :
  dict_contains kw1 "solver_family" = false →
  dict_contains kw2 "solver_family" = false →
  runs (simulate im axis kw1) t o → runs (simulate im axis kw2) t o.
Proof.
  intros H1 H2. unfold simulate, mbind, prog_bind.
  revert t o.
  do 9 (intros t o; apply runs_bind_then; clear t o; intros ?; cbv beta).
  intros t o. by rewrite (configure_solver_ignores _ kw1 kw2).
Qed.

(** *** After [simulate] *)

(** The outcome of a run of [tortuosity] whose calls are those of a run
    of [simulate] that returned. *)
Lemma outcome_after_simulate (im : image) (axis : Z) (return_im : bool)
    (kwargs : dict) (t : list event) (s : simulation)
    (o : outcome tortuosity_result) :
  runs (simulate im axis kwargs) t (Returned s) →
  runs (tortuosity im axis return_im kwargs) t o →
  o = match reduce s axis return_im with
      | inl e => Raised e
      | inr r => Returned r
      end.
Proof.
  intros Hs H.
  apply tortuosity_runs in H
    as [(_ & -> & _) | (_ & [(e & He & _) | (s' & Hs' & ->)])].
  - apply simulate_trace_nonempty in Hs as (? & ? & ?). discriminate.
  - pose proof (runs_deterministic _ _ _ _
                  (simulate_handler_free im axis kwargs) Hs He).
    discriminate.
  - pose proof (runs_deterministic _ _ _ _
                  (simulate_handler_free im axis kwargs) Hs Hs') as Heq.
    by injection Heq as <-.
Qed.

(** After a run of [simulate] that returned, [im.shape[axis]] is there. *)
Lemma simulate_returned_shape (im : image) (axis : Z) (kwargs : dict)
    (t : list event) (s : simulation) :
  runs (simulate im axis kwargs) t (Returned s) →
  ∃ L, tuple_getitem (shape (sim_im s)) axis = inr L.
Proof.
  intros Hs.
  apply simulate_returned in Hs as
    (im' & net & water & fd0 & fd1 & fd2 & inlets & outlets & tc & fd3 & fd4
     & rates_out & rates_in & rate_out & rate_in
     & _ & _ & Hout & _ & _ & _ & ->).
  by apply outlet_mask_shape in Hout.
Qed.

(** *** The index assignment of line 98 *)

Lemma broadcast_values_Some (n : nat) (vals : list float) :
  is_Some (broadcast_values n vals) ↔ length vals = n ∨ length vals = 1%nat.
Proof.
  unfold broadcast_values. destruct (decide (length vals = n)) as [|Hn].
  - split; eauto.
  - destruct vals as [|v [|v' vals]]; simpl; split;
      try (intros [? ?]; discriminate); try (intros [?|?]; simplify_eq/=);
      eauto.
Qed.

Lemma normalize_indices_inr (n : nat) (idx : list Z) :
  (∃ ks, normalize_indices n idx = inr ks)
  ↔ Forall (λ i, - Z.of_nat n ≤ i < Z.of_nat n) idx.
Proof.
  induction idx as [|i idx IH]; simpl.
  - split; eauto.
  - rewrite Forall_cons, <- IH. split.
    + intros [ks H].
      destruct (normalize_index n i) as [k|] eqn:Hk; [|done].
      destruct (normalize_indices n idx) as [|ks']; [done|].
      split; [by eapply normalize_index_range|eauto].
    + intros [[k Hk]%normalize_index_in_range [ks' Hks]].
      rewrite Hk, Hks. eauto.
Qed.

Lemma setitem_fancy_inr (a : list float) (idx : list Z) (vals : list float) :
  (∃ a', setitem_fancy a idx vals = inr a')
  ↔ (length vals = length idx ∨ length vals = 1%nat)
    ∧ Forall (λ i, - Z.of_nat (length a) ≤ i < Z.of_nat (length a)) idx.
Proof.
  unfold setitem_fancy. rewrite <- broadcast_values_Some, <- normalize_indices_inr.
  destruct (broadcast_values (length idx) vals) as [vs|].
  - destruct (normalize_indices (length a) idx) as [e|ks].
    + split; [intros [? ?]; discriminate|intros [_ [? ?]]; discriminate].
    + split; eauto.
  - split; [intros [? ?]; discriminate|intros [[? ?] _]; discriminate].
Qed.

Lemma setitem_fancy_length (a : list float) (idx : list Z) (vals a' : list float) :
  setitem_fancy a idx vals = inr a' → length a' = length a.
Proof.
  unfold setitem_fancy. intros H. repeat case_match; simplify_eq.
  apply scatter_length.
Qed.

Lemma setitem_fancy_error (a : list float) (idx : list Z) (vals : list float)
    (e : exn) :
  setitem_fancy a idx vals = inl e →
  (length vals ≠ length idx ∧ length vals ≠ 1%nat ∧ exc_class e = "ValueError")
  ∨ ((length vals = length idx ∨ length vals = 1%nat)
     ∧ exc_class e = "IndexError").
Proof.
  unfold setitem_fancy. intros H.
  destruct (broadcast_values (length idx) vals) as [vs|] eqn:Hvs.
  - right. split; [apply broadcast_values_Some; by rewrite Hvs|].
    destruct (normalize_indices _ _) eqn:Hks; simplify_eq.
    by eapply normalize_indices_error.
  - left. simplify_eq. split; [|split; [|done]].
    + intros Hlen. assert (is_Some (broadcast_values (length idx) vals)) as [? ?]
        by (apply broadcast_values_Some; auto). congruence.
    + intros Hlen. assert (is_Some (broadcast_values (length idx) vals)) as [? ?]
        by (apply broadcast_values_Some; auto). congruence.
Qed.

(** Lines 96-102 with [return_im]: what is returned, or raised. *)
Lemma concentration_image_cases (im : image) (net : network) (fd : algorithm) :
  match concentration_image im net fd true with
  | inr img =>
      ∃ values arr, img = Some arr
        ∧ arrays fd !! "pore.concentration" = Some values
        ∧ (length values = length (pore_template_indices net)
           ∨ length values = 1%nat)
        ∧ Forall (λ i, - Z.of_nat (size im) ≤ i < Z.of_nat (size im))
            (pore_template_indices net)
  | inl e =>
      (arrays fd !! "pore.concentration" = None
       ∧ e = KeyError "pore.concentration")
      ∨ (∃ values, arrays fd !! "pore.concentration" = Some values
           ∧ length values ≠ length (pore_template_indices net)
           ∧ length values ≠ 1%nat
           ∧ exc_class e = "ValueError")
      ∨ (∃ values, arrays fd !! "pore.concentration" = Some values
           ∧ (length values = length (pore_template_indices net)
              ∨ length values = 1%nat)
           ∧ ¬ Forall (λ i, - Z.of_nat (size im) ≤ i < Z.of_nat (size im))
                 (pore_template_indices net)
           ∧ exc_class e = "IndexError")
  end.
Proof.
  unfold concentration_image, algorithm_getitem.
  destruct (arrays fd !! "pore.concentration") as [values|]; [|by left].
  destruct (setitem_fancy _ _ values) as [e|conc] eqn:Hset.
  - right. pose proof (setitem_fancy_error _ _ _ _ Hset) as [(? & ? & ?) | (Hb & ?)].
    + left. eauto.
    + right. exists values. repeat split; try done.
      intros Hall.
      assert (∃ a', setitem_fancy (zeros (size im)) (pore_template_indices net)
                      values = inr a') as [? ?]; [|congruence].
      apply setitem_fancy_inr. split; [done|].
      unfold zeros. by rewrite length_replicate.
  - pose proof (setitem_fancy_length _ _ _ _ Hset) as Hlen.
    unfold zeros in Hlen. rewrite length_replicate in Hlen.
    assert (∃ a', setitem_fancy (zeros (size im)) (pore_template_indices net)
                    values = inr a') as Hex by eauto.
    apply setitem_fancy_inr in Hex as [Hb Hall].
    unfold zeros in Hall. rewrite length_replicate in Hall.
    unfold reshape. destruct (decide _) as [|Hne]; [|by destruct Hne].
    eauto 10.
Qed.

(** *** NaN *)

Lemma SFcompare_nan_r (x : SpecFloat.spec_float) :
  SpecFloat.SFcompare x SpecFloat.S754_nan = None.
Proof. by destruct x. Qed.

Lemma is_nan_spec (x : float) :
  is_nan x = true → FloatOps.Prim2SF x = SpecFloat.S754_nan.
Proof.
  unfold is_nan. rewrite FloatAxioms.eqb_spec. unfold SpecFloat.SFeqb.
  destruct (FloatOps.Prim2SF x) as [s|s| |s m e]; simpl; try done.
  - by destruct s.
  - rewrite Z.compare_refl.
    destruct s; by rewrite ?Pos.compare_cont_refl, ?Pos.compare_refl.
Qed.

Lemma is_nan_opp (x : float) : is_nan x = true → is_nan (- x) = true.
Proof.
  intros H%is_nan_spec. unfold is_nan.
  by rewrite FloatAxioms.eqb_spec, FloatAxioms.opp_spec, H.
Qed.

Lemma eqb_nan_l (x y : float) : is_nan x = true → (x =? y)%float = false.
Proof. intros H%is_nan_spec. by rewrite FloatAxioms.eqb_spec, H. Qed.

Lemma eqb_nan_r (x y : float) : is_nan y = true → (x =? y)%float = false.
Proof.
  intros H%is_nan_spec. rewrite FloatAxioms.eqb_spec, H.
  unfold SpecFloat.SFeqb. by rewrite SFcompare_nan_r.
Qed.

Lemma ltb_nan_r (x y : float) : is_nan y = true → (x <? y)%float = false.
Proof.
  intros H%is_nan_spec. rewrite FloatAxioms.ltb_spec, H.
  unfold SpecFloat.SFltb. by rewrite SFcompare_nan_r.
Qed.

Lemma div_nan_l (x y : float) : is_nan x = true → is_nan (x / y) = true.
Proof.
  intros H%is_nan_spec. unfold is_nan.
  by rewrite FloatAxioms.eqb_spec, FloatAxioms.div_spec, H.
Qed.

Lemma div_nan_r (x y : float) : is_nan y = true → is_nan (x / y) = true.
Proof.
  intros H%is_nan_spec. unfold is_nan.
  rewrite FloatAxioms.eqb_spec, FloatAxioms.div_spec, H.
  by destruct (FloatOps.Prim2SF x).
Qed.

(** [np.allclose] is false as soon as one side is NaN. *)
Lemma allclose_nan (a b : float) :
  is_nan a = true ∨ is_nan b = true → allclose a b = false.
Proof.
  unfold allclose, is_finite. intros [H | H].
  - rewrite H. simpl. by apply eqb_nan_l.
  - rewrite H. simpl. rewrite andb_false_r. by apply eqb_nan_r.
Qed.

End MoreRuns.

(** ** Further properties of [tortuosity] *)

Module Extra.
Import Py Np Effects Dns Traces Semantics Runs MoreRuns.

(** X1.  The calls of a run that returns, in order and with their
    answers: the filter on the input with the axis twice; the warning when
    the porosity dropped; the network of the trimmed image with spacing 1;
    the phase; the algorithm on the phase with a conductance of 1; the
    inlet condition 1.0, then the outlet condition 0.0; [find_spec] when
    ['solver_family'] is no keyword argument; [fd.run()] with the settings
    so configured; the outlet rate, then the inlet rate. *)
Theorem returning_run_calls (im : image) (axis : Z) (return_im : bool)
    (kwargs : dict) (t : list event) (r : tortuosity_result) :
  runs (tortuosity im axis return_im kwargs) t (Returned r) →
  ∃ im' net water fd0 fd1 fd2 spec fd4 inlets outlets rates_out rates_in,
    inlet_mask net axis = inr inlets
    ∧ outlet_mask net im' axis = inr outlets
    ∧ t = [returned (trim_nonpercolating_paths im axis axis) im']
          ++ warning_events (porosity im') (porosity im)
          ++ [returned (CubicTemplate im' 1) net;
              returned (Water net) water;
              returned (FickianDiffusion net
                          (phase_setitem water "throat.diffusive_conductance"
                             (PyInt 1))) fd0;
              returned (set_value_BC fd0 inlets 1.0) fd1;
              returned (set_value_BC fd1 outlets 0.0) fd2]
          ++ (if dict_contains kwargs "solver_family" then []
              else [returned (find_spec "pyamg") spec])
          ++ [returned
                (run (if dict_contains kwargs "solver_family"
                      then settings_update fd2 kwargs
                      else default_solver fd2 spec)) fd4;
              returned (rate fd4 outlets) rates_out;
              returned (rate fd4 inlets) rates_in].
Proof.
  intros H.
  apply tortuosity_runs in H as [(_ & _ & ?) | (_ & [(e & _ & ?) | (s & Hs & _)])];
    try discriminate.
  apply simulate_returned in Hs as
    (im' & net & water & fd0 & fd1 & fd2 & inlets & outlets & tc & fd3 & fd4
     & rates_out & rates_in & rate_out & rate_in
     & -> & Hin & Hout & Hc & _ & _ & _).
  apply runs_configure_solver in Hc.
  destruct (dict_contains kwargs "solver_family") eqn:Hkw.
  - destruct Hc as [-> Hfd]. injection Hfd as ->.
    exists im', net, water, fd0, fd1, fd2, None, fd4, inlets, outlets,
      rates_out, rates_in.
    split; [done|]. split; [done|].
    unfold setup_events. simpl. by rewrite <- !app_assoc.
  - destruct Hc as [(? & _ & ?) | (spec & -> & Hfd)]; [discriminate|].
    injection Hfd as ->.
    exists im', net, water, fd0, fd1, fd2, spec, fd4, inlets, outlets,
      rates_out, rates_in.
    split; [done|]. split; [done|].
    unfold setup_events. simpl. by rewrite <- !app_assoc.
Qed.

(** X2.  A run returns only with an axis that the check of line 39 lets
    through, that indexes the shape of the trimmed image, and that indexes
    the three coordinate columns. *)
Theorem returning_run_axis (im : image) (axis : Z) (return_im : bool)
    (kwargs : dict) (t : list event) (r : tortuosity_result) :
  runs (tortuosity im axis return_im kwargs) t (Returned r) →
  ∃ im' t',
    t = returned (trim_nonpercolating_paths im axis axis) im' :: t'
    ∧ axis ≤ ndim im - 1
    ∧ - ndim im' ≤ axis < ndim im'
    ∧ -3 ≤ axis < 3.
Proof.
  intros H.
  apply tortuosity_runs in H as [(_ & _ & ?) | (Hax & [(e & _ & ?) | (s & Hs & _)])];
    try discriminate.
  apply simulate_returned in Hs as
    (im' & net & water & fd0 & fd1 & fd2 & inlets & outlets & tc & fd3 & fd4
     & rates_out & rates_in & rate_out & rate_in
     & -> & Hin & Hout & _).
  eexists im', _. split; [reflexivity|]. split; [done|].
  split.
  - apply outlet_mask_shape in Hout as [L HL].
    by apply tuple_getitem_range in HL.
  - by eapply inlet_mask_range.
Qed.

(** X3.  Of a returned result, the original porosity is that of the
    input image and the effective porosity that of the image the filter
    returned, each the number of [True] voxels over the number of voxels. *)
Theorem result_porosities (im im' : image) (axis : Z) (return_im : bool)
    (kwargs : dict) (t t' : list event) (r : tortuosity_result) :
  runs (tortuosity im axis return_im kwargs) t (Returned r) →
  t = returned (trim_nonpercolating_paths im axis axis) im' :: t' →
  original_porosity r
  = (float_of_Z (Z.of_nat (sum im)) / float_of_Z (Z.of_nat (size im)))%float
  ∧ effective_porosity r
    = (float_of_Z (Z.of_nat (sum im')) / float_of_Z (Z.of_nat (size im')))%float.
Proof.
  intros H Ht.
  apply tortuosity_runs in H as [(_ & _ & ?) | (_ & [(e & _ & ?) | (s & Hs & Hr)])];
    try discriminate.
  destruct (reduce s axis return_im) as [|r'] eqn:Hred; simplify_eq.
  apply reduce_returned in Hred as (_ & L & img & _ & _ & ->).
  apply simulate_returned in Hs as
    (im'' & net & water & fd0 & fd1 & fd2 & inlets & outlets & tc & fd3 & fd4
     & rates_out & rates_in & rate_out & rate_in
     & Ht & _ & _ & _ & _ & _ & ->).
  unfold setup_events in Ht. simpl in Ht.
  injection Ht as Hev _. by subst im''.
Qed.

(** X4.  Without [return_im], once both rates are read and balance, the
    run returns, with no image: nothing after line 78 can raise. *)
Theorem balanced_run_returns (im : image) (axis : Z) (kwargs : dict)
    (t : list event) (s : simulation) (o : outcome tortuosity_result) :
  runs (simulate im axis kwargs) t (Returned s) →
  allclose (- sim_rate_out s)%float (sim_rate_in s) = true →
  runs (tortuosity im axis false kwargs) t o →
  ∃ r, o = Returned r ∧ result_image r = None.
Proof.
  intros Hs Hclose H.
  apply tortuosity_runs in H
    as [(_ & -> & _) | (_ & [(e & He & _) | (s' & Hs' & ->)])].
  - apply simulate_trace_nonempty in Hs as (? & ? & ?). discriminate.
  - pose proof (runs_deterministic _ _ _ _
                  (simulate_handler_free im axis kwargs) Hs He).
    discriminate.
  - pose proof (runs_deterministic _ _ _ _
                  (simulate_handler_free im axis kwargs) Hs Hs') as Heq.
    injection Heq as <-.
    apply simulate_returned in Hs as
      (im' & net & water & fd0 & fd1 & fd2 & inlets & outlets & tc & fd3 & fd4
       & rates_out & rates_in & rate_out & rate_in
       & _ & _ & Hout & _ & _ & _ & Heq).
    apply outlet_mask_shape in Hout as [L HL].
    unfold reduce. rewrite Hclose. rewrite Heq. cbn [sim_im negb].
    rewrite HL. simpl. eauto.
Qed.

(** X5.  A run with [return_im] that returns is, with the same calls and
    answers, a run without [return_im] that returns the same four numbers
    and no image. *)
Theorem return_im_only_adds_image (im : image) (axis : Z) (kwargs : dict)
    (t : list event) (r : tortuosity_result) :
  runs (tortuosity im axis true kwargs) t (Returned r) →
  runs (tortuosity im axis false kwargs) t
    (Returned {| result_tortuosity := result_tortuosity r;
                 effective_porosity := effective_porosity r;
                 original_porosity := original_porosity r;
                 formation_factor := formation_factor r;
                 result_image := None |}).
Proof.
  intros H.
  apply tortuosity_runs in H as [(_ & _ & ?) | (Hax & [(e & _ & ?) | (s & Hs & Hr)])];
    try discriminate.
  destruct (reduce s axis true) as [|r'] eqn:Hred; simplify_eq.
  apply reduce_returned in Hred as (Hclose & L & img & HL & _ & ->).
  unfold tortuosity.
  destruct (Z.gtb_spec axis (ndim im - 1)) as [|_]; [lia|].
  unfold mbind, prog_bind.
  rewrite <- (app_nil_r t).
  eapply runs_bind_returned; [exact Hs|].
  unfold reduce. rewrite Hclose, HL. simpl. done.
Qed.

(** X6.  With [return_im], once both rates are read and balance, the
    run returns exactly when the algorithm holds ['pore.concentration'],
    with one value per pore or a single value, and every template index of
    the network lies within the trimmed image. *)
Theorem image_run_returns (im : image) (axis : Z) (kwargs : dict)
    (t : list event) (s : simulation) (o : outcome tortuosity_result) :
  runs (simulate im axis kwargs) t (Returned s) →
  allclose (- sim_rate_out s)%float (sim_rate_in s) = true →
  runs (tortuosity im axis true kwargs) t o →
  (∃ r, o = Returned r)
  ↔ ∃ values,
      arrays (sim_fd s) !! "pore.concentration" = Some values
      ∧ (length values = length (pore_template_indices (sim_net s))
         ∨ length values = 1%nat)
      ∧ Forall (λ i, - Z.of_nat (size (sim_im s)) ≤ i
                     < Z.of_nat (size (sim_im s)))
          (pore_template_indices (sim_net s)).
Proof.
  intros Hs Hclose H.
  rewrite (outcome_after_simulate _ _ _ _ _ _ _ Hs H).
  destruct (simulate_returned_shape _ _ _ _ _ Hs) as [L HL].
  unfold reduce. rewrite Hclose, HL. cbn [negb].
  pose proof (concentration_image_cases (sim_im s) (sim_net s) (sim_fd s)) as Hc.
  destruct (concentration_image _ _ _ true) as [e|img].
  - split; [intros [? ?]; discriminate|].
    intros (values & Hv & Hb & Hall).
    destruct Hc as [[Hnone _] | [(v & Hv' & Hn & H1 & _) | (v & Hv' & _ & Hnot & _)]];
      simplify_eq.
    + destruct Hb; contradiction.
    + contradiction.
  - destruct Hc as (values & arr & _ & Hv & Hb & Hall). split; eauto.
Qed.

(** X7.  With [return_im], once both rates are read and balance, a run
    that does not return raises a [KeyError] when the algorithm holds no
    ['pore.concentration'], a [ValueError] when the number of its values
    is neither the number of pores nor one, and an [IndexError] when a
    template index lies outside the trimmed image. *)
Theorem image_run_errors (im : image) (axis : Z) (kwargs : dict)
    (t : list event) (s : simulation) (e : exn) :
  runs (simulate im axis kwargs) t (Returned s) →
  allclose (- sim_rate_out s)%float (sim_rate_in s) = true →
  runs (tortuosity im axis true kwargs) t (Raised e) →
  (arrays (sim_fd s) !! "pore.concentration" = None
   ∧ e = KeyError "pore.concentration")
  ∨ (∃ values, arrays (sim_fd s) !! "pore.concentration" = Some values
       ∧ length values ≠ length (pore_template_indices (sim_net s))
       ∧ length values ≠ 1%nat
       ∧ exc_class e = "ValueError")
  ∨ (∃ values, arrays (sim_fd s) !! "pore.concentration" = Some values
       ∧ (length values = length (pore_template_indices (sim_net s))
          ∨ length values = 1%nat)
       ∧ ¬ Forall (λ i, - Z.of_nat (size (sim_im s)) ≤ i
                        < Z.of_nat (size (sim_im s)))
             (pore_template_indices (sim_net s))
       ∧ exc_class e = "IndexError").
Proof.
  intros Hs Hclose H.
  pose proof (outcome_after_simulate _ _ _ _ _ _ _ Hs H) as Ho.
  destruct (simulate_returned_shape _ _ _ _ _ Hs) as [L HL].
  unfold reduce in Ho. rewrite Hclose, HL in Ho. cbn [negb] in Ho.
  pose proof (concentration_image_cases (sim_im s) (sim_net s) (sim_fd s)) as Hc.
  destruct (concentration_image _ _ _ true) as [e'|img]; [|discriminate].
  by injection Ho as ->.
Qed.

(** X8.  Once both rates are read, a NaN among them makes the run raise
    the rate exception: a solve that produced NaN gives no result. *)
Theorem nan_rate_raises (im : image) (axis : Z) (return_im : bool)
    (kwargs : dict) (t : list event) (s : simulation)
    (o : outcome tortuosity_result) :
  runs (simulate im axis kwargs) t (Returned s) →
  is_nan (sim_rate_out s) = true ∨ is_nan (sim_rate_in s) = true →
  runs (tortuosity im axis return_im kwargs) t o →
  o = Raised rate_error.
Proof.
  intros Hs Hnan H.
  rewrite (outcome_after_simulate _ _ _ _ _ _ _ Hs H).
  unfold reduce. rewrite allclose_nan; [done|].
  destruct Hnan as [Hn | Hn]; [left; by apply is_nan_opp|by right].
Qed.

(** X9.  An exception of the function's own, that is, with no delegated
    call having raised, is the axis exception, the rate exception or an
    [IndexError], or, with [return_im] only, a [KeyError] or a
    [ValueError]. *)
Theorem own_exceptions (im : image) (axis : Z) (return_im : bool)
    (kwargs : dict) (t : list event) (e : exn) :
  runs (tortuosity im axis return_im kwargs) t (Raised e) →
  (∀ c e', raised c e' ∉ t) →
  e = axis_error ∨ e = rate_error ∨ exc_class e = "IndexError"
  ∨ (return_im = true
     ∧ (exc_class e = "KeyError" ∨ exc_class e = "ValueError")).
Proof.
  intros H Hnone.
  apply tortuosity_runs in H
    as [(_ & _ & He) | (_ & [(e' & He & Heq) | (s & Hs & Ho)])].
  - injection He as ->. by left.
  - injection Heq as <-.
    apply simulate_raised in He as [[c Hc] | Hcls]; [by apply Hnone in Hc|].
    eauto.
  - unfold reduce in Ho.
    destruct (allclose _ _); cbn [negb] in Ho; [|injection Ho as ->; eauto].
    destruct (tuple_getitem _ _) as [e'|L] eqn:HL.
    { injection Ho as ->. eauto using tuple_getitem_error. }
    destruct return_im.
    + pose proof (concentration_image_cases (sim_im s) (sim_net s) (sim_fd s)) as Hc.
      destruct (concentration_image _ _ _ true) as [e'|img]; [|discriminate].
      injection Ho as ->.
      destruct Hc as [[_ ->] | [(v & _ & _ & _ & Hcls) | (v & _ & _ & _ & Hcls)]];
        eauto 10.
    + simpl in Ho. discriminate.
Qed.

(** X10.  [find_spec] is called with ["pyamg"] only, and never when
    ['solver_family'] is among the keyword arguments. *)
Theorem find_spec_only_by_default (im : image) (axis : Z) (return_im : bool)
    (kwargs : dict) (t : list event) (o : outcome tortuosity_result)
    (name : string) (a : answer pyobj) :
  runs (tortuosity im axis return_im kwargs) t o →
  Ev (find_spec name) a ∈ t →
  name = "pyamg" ∧ dict_contains kwargs "solver_family" = false.
Proof.
  intros H Hin.
  apply tortuosity_runs in H
    as [(_ & -> & _) | (_ & [(e & Hs & _) | (s & Hs & _)])].
  - by apply elem_of_nil in Hin.
  - by eapply simulate_find_spec.
  - by eapply simulate_find_spec.
Qed.

(** X11.  Two sets of keyword arguments without ['solver_family'] give
    the same runs: the same calls with the same arguments, and the same
    outcome for the same answers. *)
Theorem kwargs_without_family_ignored (im : image) (axis : Z)
    (return_im : bool) (kw1 kw2 : dict) (t : list event)
    (o : outcome tortuosity_result) :
  dict_contains kw1 "solver_family" = false →
  dict_contains kw2 "solver_family" = false →
  runs (tortuosity im axis return_im kw1) t o
  ↔ runs (tortuosity im axis return_im kw2) t o.
Proof.
  intros H1 H2. unfold tortuosity.
  destruct (axis >? ndim im - 1); [done|].
  unfold mbind, prog_bind.
  split; apply runs_bind_first; intros t' o'; by apply simulate_ignores.
Qed.

(** X12.  [logger.warning] is called only when the porosity of the image
    the filter returned is below that of the input, and then with that
    porosity and with the difference of the two. *)
Theorem warning_only_when_porosity_dropped (im : image) (axis : Z)
    (return_im : bool) (kwargs : dict) (t : list event)
    (o : outcome tortuosity_result) (eps filled : float) (a : answer pyobj) :
  runs (tortuosity im axis return_im kwargs) t o →
  Ev (logger_warning eps filled) a ∈ t →
  ∃ im' t',
    t = returned (trim_nonpercolating_paths im axis axis) im' :: t'
    ∧ (porosity im' <? porosity im)%float = true
    ∧ eps = porosity im'
    ∧ filled = (porosity im - porosity im')%float.
Proof.
  intros H Hin.
  apply tortuosity_runs in H
    as [(_ & -> & _) | (_ & [(e & Hs & _) | (s & Hs & _)])].
  - by apply elem_of_nil in Hin.
  - by eapply simulate_warning.
  - by eapply simulate_warning.
Qed.

(** X13.  On an image without voxels the original porosity is NaN: no
    warning is logged, whatever the filter returns, and a returned result
    has NaN as its original porosity. *)
Theorem empty_image_porosity (im : image) (axis : Z) (return_im : bool)
    (kwargs : dict) (t : list event) (o : outcome tortuosity_result) :
  well_formed im → size im = 0%nat →
  runs (tortuosity im axis return_im kwargs) t o →
  (∀ eps filled a, Ev (logger_warning eps filled) a ∉ t)
  ∧ (∀ r, o = Returned r → is_nan (original_porosity r) = true).
Proof.
  intros Hwf Hsize H.
  assert (Hnan : is_nan (porosity im) = true).
  { unfold porosity, sum. unfold well_formed in Hwf. rewrite Hsize in Hwf |- *.
    destruct (data im); [|done]. reflexivity. }
  split.
  - intros eps filled a Hin.
    assert (∃ o', runs (simulate im axis kwargs) t o') as [o' Hs].
    { apply tortuosity_runs in H
        as [(_ & -> & _) | (_ & [(e & Hs & _) | (s & Hs & _)])]; eauto.
      by apply elem_of_nil in Hin. }
    destruct (simulate_warning _ _ _ _ _ _ _ _ Hs Hin) as (im' & t' & _ & Hlt & _).
    by rewrite ltb_nan_r in Hlt.
  - intros r ->.
    apply tortuosity_runs in H as [(_ & _ & ?) | (_ & [(e & _ & ?) | (s & Hs & Hr)])];
      try discriminate.
    destruct (reduce s axis return_im) as [|r'] eqn:Hred; simplify_eq.
    apply reduce_returned in Hred as (_ & L & img & _ & _ & ->).
    apply simulate_returned in Hs as
      (im' & net & water & fd0 & fd1 & fd2 & inlets & outlets & tc & fd3 & fd4
       & rates_out & rates_in & rate_out & rate_in
       & _ & _ & _ & _ & _ & _ & ->).
    done.
Qed.

(** X14.  An axis that passes the check of line 39 but names none of the
    three coordinate columns: the run raises, without having set a
    boundary condition or run the solver; unless a delegated call raised,
    the exception is the [IndexError] of [net['pore.coords'][:, axis]],
    which for an axis of 64 bits says that the index is out of bounds. *)
Theorem axis_outside_columns (im : image) (axis : Z) (return_im : bool)
    (kwargs : dict) (t : list event) (o : outcome tortuosity_result) :
  ¬ (-3 ≤ axis < 3) → axis ≤ ndim im - 1 →
  runs (tortuosity im axis return_im kwargs) t o →
  (∃ e, o = Raised e
     ∧ ((∀ c e', raised c e' ∉ t) →
        exc_class e = "IndexError"
        ∧ (- 2 ^ 63 ≤ axis < 2 ^ 63 →
           e = IndexError ("index " +:+ pretty axis
                           +:+ " is out of bounds for axis 1 with size 3"))))
  ∧ (∀ fd pores values a, Ev (set_value_BC fd pores values) a ∉ t)
  ∧ (∀ fd a, Ev (run fd) a ∉ t).
Proof.
  intros Hcol Hax H.
  apply tortuosity_runs in H
    as [(? & _ & _) | (_ & [(e & Hs & ->) | (s & Hs & _)])]; [lia| |].
  - destruct (simulate_outside_columns _ _ _ _ _ Hcol Hs)
      as ((e' & He & Hmsg) & Hbc & Hrun).
    injection He as <-.
    split; [exists e; split; [done|exact Hmsg]|]. by split.
  - destruct (simulate_outside_columns _ _ _ _ _ Hcol Hs)
      as ((e' & He & _) & _). discriminate.
Qed.

(** X15.  When [fd.rate] returns an empty array, the [[0]] of line 75 or
    76 raises an [IndexError]: that call is the last of the run, so that
    after an empty outlet rate the inlet rate is not asked for. *)
Theorem empty_rate_array (im : image) (axis : Z) (return_im : bool)
    (kwargs : dict) (t : list event) (o : outcome tortuosity_result)
    (fd : algorithm) (pores : list bool) :
  runs (tortuosity im axis return_im kwargs) t o →
  returned (rate fd pores) [] ∈ t →
  o = Raised (IndexError "index 0 is out of bounds for axis 0 with size 0")
  ∧ ∃ t0, t = t0 ++ [returned (rate fd pores) []].
Proof.
  intros H Hin.
  apply tortuosity_runs in H
    as [(_ & -> & _) | (_ & [(e & Hs & ->) | (s & Hs & _)])].
  - by apply elem_of_nil in Hin.
  - destruct (simulate_empty_rates _ _ _ _ _ _ _ Hs Hin) as [He Hlast].
    injection He as ->. done.
  - destruct (simulate_empty_rates _ _ _ _ _ _ _ Hs Hin) as [He _].
    discriminate.
Qed.

End Extra.

(** ** The further properties on the runs of the stand-ins *)

Module ExtraWitnesses.
Import Py Np Effects Dns Traces Examples MoreExamples.
Import Semantics Runs MoreRuns Witnesses Extra.

Lemma stripes_returns_numbers :
  runs (tortuosity stripes 0 false ∅) (stripes_trace stripes_library)
    (Returned stripes_numbers).
Proof.
  apply (exec_runs_eq (library_env stripes_library) _ tt tt).
  vm_compute. reflexivity.
Qed.

Lemma nan_simulated :
  runs (simulate stripes 0 ∅) (stripes_trace nan_library)
    (Returned (stripes_simulation nan)).
Proof.
  apply (exec_runs_eq (library_env nan_library) _ tt tt).
  vm_compute. reflexivity.
Qed.

Lemma nan_raises :
  runs (tortuosity stripes 0 true ∅) (stripes_trace nan_library)
    (Raised rate_error).
Proof.
  apply (exec_runs_eq (library_env nan_library) _ tt tt).
  vm_compute. reflexivity.
Qed.

Lemma hollow_simulated :
  runs (simulate stripes 0 ∅) hollow_trace (Returned hollow_simulation).
Proof.
  apply (exec_runs_eq hollow_env _ tt tt). vm_compute. reflexivity.
Qed.

Lemma hollow_raises :
  runs (tortuosity stripes 0 true ∅) hollow_trace
    (Raised (KeyError "pore.concentration")).
Proof.
  apply (exec_runs_eq hollow_env _ tt tt). vm_compute. reflexivity.
Qed.

Lemma leaky_calls_return (c : call) (e : exn) :
  raised c e ∉ stripes_trace leaky_library.
Proof.
  intros Hin. unfold raised in Hin.
  apply list_elem_of_lookup_1 in Hin as [i Hi].
  do 12 (destruct i as [|i]; [vm_compute in Hi; discriminate Hi|]).
  vm_compute in Hi. discriminate Hi.
Qed.

Lemma dead_end_returns :
  runs (tortuosity dead_end 0 false ∅) (calls_of dead_end_library dead_end 0 ∅)
    (Returned {| result_tortuosity := 0.66666666666666663%float;
                 effective_porosity := 0.33333333333333331%float;
                 original_porosity := 0.44444444444444442%float;
                 formation_factor := 2%float;
                 result_image := None |}).
Proof.
  apply (exec_runs_eq (library_env dead_end_library) _ tt tt).
  vm_compute. reflexivity.
Qed.

Lemma dead_end_warns :
  Ev (logger_warning (porosity dead_end_trimmed)
        (porosity dead_end - porosity dead_end_trimmed)%float) (Ok ONone)
  ∈ calls_of dead_end_library dead_end 0 ∅.
Proof. apply (list_elem_of_lookup_2 _ 1). vm_compute. reflexivity. Qed.

Lemma void_returns :
  runs (tortuosity void 0 false ∅) (calls_of void_library void 0 ∅)
    (Returned {| result_tortuosity := nan; effective_porosity := nan;
                 original_porosity := nan; formation_factor := nan;
                 result_image := None |}).
Proof.
  apply (exec_runs_eq (library_env void_library) _ tt tt).
  vm_compute. reflexivity.
Qed.

Lemma below_columns_raises :
  runs (tortuosity stripes (-4) false ∅)
    (calls_of stripes_library stripes (-4) ∅)
    (Raised (IndexError "index -4 is out of bounds for axis 1 with size 3")).
Proof.
  apply (exec_runs_eq (library_env stripes_library) _ tt tt).
  vm_compute. reflexivity.
Qed.

Lemma silent_raises :
  runs (tortuosity stripes 0 false ∅) (calls_of silent_library stripes 0 ∅)
    (Raised (IndexError "index 0 is out of bounds for axis 0 with size 0")).
Proof.
  apply (exec_runs_eq (library_env silent_library) _ tt tt).
  vm_compute. reflexivity.
Qed.

Lemma silent_outlet_rate :
  returned (rate solved_fd stripes_outlets) []
  ∈ calls_of silent_library stripes 0 ∅.
Proof. apply (list_elem_of_lookup_2 _ 8). vm_compute. reflexivity. Qed.

Lemma stripes_finds_spec :
  Ev (find_spec "pyamg") (Ok (OSpec (Some "pyamg")))
  ∈ stripes_trace stripes_library.
Proof. apply (list_elem_of_lookup_2 _ 6). vm_compute. reflexivity. Qed.

Lemma stripes_rates_balance :
  allclose (- sim_rate_out (stripes_simulation (-1.5)%float))%float
    (sim_rate_in (stripes_simulation (-1.5)%float)) = true.
Proof. vm_compute. reflexivity. Qed.

Lemma hollow_rates_balance :
  allclose (- sim_rate_out hollow_simulation)%float
    (sim_rate_in hollow_simulation) = true.
Proof. vm_compute. reflexivity. Qed.

(** X1 on [stripes]. *)
Lemma returning_run_calls_witness :
  runs (tortuosity stripes 0 true ∅) (stripes_trace stripes_library)
    (Returned stripes_result)
  ∧ ∃ im' net water fd0 fd1 fd2 spec fd4 inlets outlets rates_out rates_in,
      inlet_mask net 0 = inr inlets
      ∧ outlet_mask net im' 0 = inr outlets
      ∧ stripes_trace stripes_library
        = [returned (trim_nonpercolating_paths stripes 0 0) im']
          ++ warning_events (porosity im') (porosity stripes)
          ++ [returned (CubicTemplate im' 1) net;
              returned (Water net) water;
              returned (FickianDiffusion net
                          (phase_setitem water "throat.diffusive_conductance"
                             (PyInt 1))) fd0;
              returned (set_value_BC fd0 inlets 1.0) fd1;
              returned (set_value_BC fd1 outlets 0.0) fd2]
          ++ (if dict_contains (∅ : dict) "solver_family" then []
              else [returned (find_spec "pyamg") spec])
          ++ [returned
                (run (if dict_contains (∅ : dict) "solver_family"
                      then settings_update fd2 ∅
                      else default_solver fd2 spec)) fd4;
              returned (rate fd4 outlets) rates_out;
              returned (rate fd4 inlets) rates_in].
Proof.
  split; [exact stripes_returns|].
  exact (returning_run_calls stripes 0 true ∅ _ _ stripes_returns).
Defined.

(** X2 on [stripes]. *)
Lemma returning_run_axis_witness :
  runs (tortuosity stripes 0 true ∅) (stripes_trace stripes_library)
    (Returned stripes_result)
  ∧ ∃ im' t',
      stripes_trace stripes_library
      = returned (trim_nonpercolating_paths stripes 0 0) im' :: t'
      ∧ 0 ≤ ndim stripes - 1
      ∧ - ndim im' ≤ 0 < ndim im'
      ∧ -3 ≤ 0 < 3.
Proof.
  split; [exact stripes_returns|].
  exact (returning_run_axis stripes 0 true ∅ _ _ stripes_returns).
Defined.

(** X3 on [dead_end], of which the filter removes a voxel. *)
Lemma result_porosities_witness :
  runs (tortuosity dead_end 0 false ∅) (calls_of dead_end_library dead_end 0 ∅)
    (Returned {| result_tortuosity := 0.66666666666666663%float;
                 effective_porosity := 0.33333333333333331%float;
                 original_porosity := 0.44444444444444442%float;
                 formation_factor := 2%float;
                 result_image := None |})
  ∧ calls_of dead_end_library dead_end 0 ∅
    = returned (trim_nonpercolating_paths dead_end 0 0) dead_end_trimmed
      :: tail (calls_of dead_end_library dead_end 0 ∅)
  ∧ 0.44444444444444442%float
    = (float_of_Z (Z.of_nat (sum dead_end))
       / float_of_Z (Z.of_nat (size dead_end)))%float
  ∧ 0.33333333333333331%float
    = (float_of_Z (Z.of_nat (sum dead_end_trimmed))
       / float_of_Z (Z.of_nat (size dead_end_trimmed)))%float.
Proof.
  assert (Hhead : calls_of dead_end_library dead_end 0 ∅
    = returned (trim_nonpercolating_paths dead_end 0 0) dead_end_trimmed
      :: tail (calls_of dead_end_library dead_end 0 ∅))
    by (vm_compute; reflexivity).
  split; [exact dead_end_returns|]. split; [exact Hhead|].
  exact (result_porosities dead_end dead_end_trimmed 0 false ∅ _ _ _
           dead_end_returns Hhead).
Defined.

(** X4 on [stripes]. *)
Lemma balanced_run_returns_witness :
  runs (simulate stripes 0 ∅) (stripes_trace stripes_library)
    (Returned (stripes_simulation (-1.5)%float))
  ∧ allclose (- sim_rate_out (stripes_simulation (-1.5)%float))%float
      (sim_rate_in (stripes_simulation (-1.5)%float)) = true
  ∧ runs (tortuosity stripes 0 false ∅) (stripes_trace stripes_library)
      (Returned stripes_numbers)
  ∧ ∃ r, Returned stripes_numbers = Returned r ∧ result_image r = None.
Proof.
  split; [exact stripes_simulated|].
  split; [exact stripes_rates_balance|].
  split; [exact stripes_returns_numbers|].
  exact (balanced_run_returns stripes 0 ∅ _ _ _ stripes_simulated
           stripes_rates_balance stripes_returns_numbers).
Defined.

(** X5 on [stripes]. *)
Lemma return_im_only_adds_image_witness :
  runs (tortuosity stripes 0 true ∅) (stripes_trace stripes_library)
    (Returned stripes_result)
  ∧ runs (tortuosity stripes 0 false ∅) (stripes_trace stripes_library)
      (Returned {| result_tortuosity := result_tortuosity stripes_result;
                   effective_porosity := effective_porosity stripes_result;
                   original_porosity := original_porosity stripes_result;
                   formation_factor := formation_factor stripes_result;
                   result_image := None |}).
Proof.
  split; [exact stripes_returns|].
  exact (return_im_only_adds_image stripes 0 ∅ _ _ stripes_returns).
Defined.

(** X6 on [stripes]. *)
Lemma image_run_returns_witness :
  runs (simulate stripes 0 ∅) (stripes_trace stripes_library)
    (Returned (stripes_simulation (-1.5)%float))
  ∧ allclose (- sim_rate_out (stripes_simulation (-1.5)%float))%float
      (sim_rate_in (stripes_simulation (-1.5)%float)) = true
  ∧ runs (tortuosity stripes 0 true ∅) (stripes_trace stripes_library)
      (Returned stripes_result)
  ∧ ((∃ r, Returned stripes_result = Returned r)
     ↔ ∃ values,
         arrays (sim_fd (stripes_simulation (-1.5)%float))
           !! "pore.concentration" = Some values
         ∧ (length values
            = length (pore_template_indices
                        (sim_net (stripes_simulation (-1.5)%float)))
            ∨ length values = 1%nat)
         ∧ Forall (λ i, - Z.of_nat (size (sim_im (stripes_simulation (-1.5)%float)))
                        ≤ i
                        < Z.of_nat (size (sim_im (stripes_simulation (-1.5)%float))))
             (pore_template_indices
                (sim_net (stripes_simulation (-1.5)%float)))).
Proof.
  split; [exact stripes_simulated|].
  split; [exact stripes_rates_balance|].
  split; [exact stripes_returns|].
  exact (image_run_returns stripes 0 ∅ _ _ _ stripes_simulated
           stripes_rates_balance stripes_returns).
Defined.

(** X7 on [stripes] with an algorithm that keeps no concentration. *)
Lemma image_run_errors_witness :
  runs (simulate stripes 0 ∅) hollow_trace (Returned hollow_simulation)
  ∧ allclose (- sim_rate_out hollow_simulation)%float
      (sim_rate_in hollow_simulation) = true
  ∧ runs (tortuosity stripes 0 true ∅) hollow_trace
      (Raised (KeyError "pore.concentration"))
  ∧ ((arrays (sim_fd hollow_simulation) !! "pore.concentration" = None
      ∧ KeyError "pore.concentration" = KeyError "pore.concentration")
     ∨ (∃ values,
          arrays (sim_fd hollow_simulation) !! "pore.concentration" = Some values
          ∧ length values
            ≠ length (pore_template_indices (sim_net hollow_simulation))
          ∧ length values ≠ 1%nat
          ∧ exc_class (KeyError "pore.concentration") = "ValueError")
     ∨ (∃ values,
          arrays (sim_fd hollow_simulation) !! "pore.concentration" = Some values
          ∧ (length values
             = length (pore_template_indices (sim_net hollow_simulation))
             ∨ length values = 1%nat)
          ∧ ¬ Forall (λ i, - Z.of_nat (size (sim_im hollow_simulation)) ≤ i
                           < Z.of_nat (size (sim_im hollow_simulation)))
                (pore_template_indices (sim_net hollow_simulation))
          ∧ exc_class (KeyError "pore.concentration") = "IndexError")).
Proof.
  split; [exact hollow_simulated|].
  split; [exact hollow_rates_balance|].
  split; [exact hollow_raises|].
  exact (image_run_errors stripes 0 ∅ _ _ _ hollow_simulated
           hollow_rates_balance hollow_raises).
Defined.

(** X8 on [stripes] with a NaN outlet rate. *)
Lemma nan_rate_raises_witness :
  runs (simulate stripes 0 ∅) (stripes_trace nan_library)
    (Returned (stripes_simulation nan))
  ∧ (is_nan (sim_rate_out (stripes_simulation nan)) = true
     ∨ is_nan (sim_rate_in (stripes_simulation nan)) = true)
  ∧ runs (tortuosity stripes 0 true ∅) (stripes_trace nan_library)
      (Raised rate_error)
  ∧ @Raised tortuosity_result rate_error = Raised rate_error.
Proof.
  assert (Hnan : is_nan (sim_rate_out (stripes_simulation nan)) = true
                 ∨ is_nan (sim_rate_in (stripes_simulation nan)) = true)
    by (left; reflexivity).
  split; [exact nan_simulated|]. split; [exact Hnan|].
  split; [exact nan_raises|].
  exact (nan_rate_raises stripes 0 true ∅ _ _ _ nan_simulated Hnan nan_raises).
Defined.

(** X9 on [stripes] with rates that do not balance. *)
Lemma own_exceptions_witness :
  runs (tortuosity stripes 0 true ∅) (stripes_trace leaky_library)
    (Raised rate_error)
  ∧ (∀ c e', raised c e' ∉ stripes_trace leaky_library)
  ∧ (rate_error = axis_error ∨ rate_error = rate_error
     ∨ exc_class rate_error = "IndexError"
     ∨ (true = true
        ∧ (exc_class rate_error = "KeyError"
           ∨ exc_class rate_error = "ValueError"))).
Proof.
  split; [exact leaky_raises|]. split; [exact leaky_calls_return|].
  exact (own_exceptions stripes 0 true ∅ _ _ leaky_raises leaky_calls_return).
Defined.

(** X10 on [stripes], without keyword arguments. *)
Lemma find_spec_only_by_default_witness :
  runs (tortuosity stripes 0 true ∅) (stripes_trace stripes_library)
    (Returned stripes_result)
  ∧ Ev (find_spec "pyamg") (Ok (OSpec (Some "pyamg")))
    ∈ stripes_trace stripes_library
  ∧ "pyamg" = "pyamg" ∧ dict_contains (∅ : dict) "solver_family" = false.
Proof.
  split; [exact stripes_returns|]. split; [exact stripes_finds_spec|].
  exact (find_spec_only_by_default stripes 0 true ∅ _ _ _ _
           stripes_returns stripes_finds_spec).
Defined.

(** X11 on [stripes], without keyword arguments and with a tolerance. *)
Lemma kwargs_without_family_ignored_witness :
  dict_contains (∅ : dict) "solver_family" = false
  ∧ dict_contains tol_kwargs "solver_family" = false
  ∧ (runs (tortuosity stripes 0 true ∅) (stripes_trace stripes_library)
       (Returned stripes_result)
     ↔ runs (tortuosity stripes 0 true tol_kwargs) (stripes_trace stripes_library)
         (Returned stripes_result)).
Proof.
  assert (H1 : dict_contains (∅ : dict) "solver_family" = false)
    by (vm_compute; reflexivity).
  assert (H2 : dict_contains tol_kwargs "solver_family" = false)
    by (vm_compute; reflexivity).
  split; [exact H1|]. split; [exact H2|].
  exact (kwargs_without_family_ignored stripes 0 true ∅ tol_kwargs
           (stripes_trace stripes_library) (Returned stripes_result) H1 H2).
Defined.

(** X12 on [dead_end]. *)
Lemma warning_only_when_porosity_dropped_witness :
  runs (tortuosity dead_end 0 false ∅) (calls_of dead_end_library dead_end 0 ∅)
    (Returned {| result_tortuosity := 0.66666666666666663%float;
                 effective_porosity := 0.33333333333333331%float;
                 original_porosity := 0.44444444444444442%float;
                 formation_factor := 2%float;
                 result_image := None |})
  ∧ Ev (logger_warning (porosity dead_end_trimmed)
          (porosity dead_end - porosity dead_end_trimmed)%float) (Ok ONone)
    ∈ calls_of dead_end_library dead_end 0 ∅
  ∧ ∃ im' t',
      calls_of dead_end_library dead_end 0 ∅
      = returned (trim_nonpercolating_paths dead_end 0 0) im' :: t'
      ∧ (porosity im' <? porosity dead_end)%float = true
      ∧ porosity dead_end_trimmed = porosity im'
      ∧ (porosity dead_end - porosity dead_end_trimmed)%float
        = (porosity dead_end - porosity im')%float.
Proof.
  split; [exact dead_end_returns|]. split; [exact dead_end_warns|].
  exact (warning_only_when_porosity_dropped dead_end 0 false ∅ _ _ _ _ _
           dead_end_returns dead_end_warns).
Defined.

(** X13 on [void]. *)
Lemma empty_image_porosity_witness :
  well_formed void ∧ size void = 0%nat
  ∧ runs (tortuosity void 0 false ∅) (calls_of void_library void 0 ∅)
      (Returned {| result_tortuosity := nan; effective_porosity := nan;
                   original_porosity := nan; formation_factor := nan;
                   result_image := None |})
  ∧ (∀ eps filled a,
       Ev (logger_warning eps filled) a ∉ calls_of void_library void 0 ∅)
  ∧ (∀ r, Returned {| result_tortuosity := nan; effective_porosity := nan;
                      original_porosity := nan; formation_factor := nan;
                      result_image := None |} = Returned r →
          is_nan (original_porosity r) = true).
Proof.
  assert (Hwf : well_formed void) by reflexivity.
  assert (Hsize : size void = 0%nat) by reflexivity.
  split; [exact Hwf|]. split; [exact Hsize|]. split; [exact void_returns|].
  exact (empty_image_porosity void 0 false ∅ _ _ Hwf Hsize void_returns).
Defined.

(** X14 on [stripes] with [axis = -4]. *)
Lemma axis_outside_columns_witness :
  ¬ (-3 ≤ -4 < 3) ∧ -4 ≤ ndim stripes - 1
  ∧ runs (tortuosity stripes (-4) false ∅)
      (calls_of stripes_library stripes (-4) ∅)
      (Raised (IndexError "index -4 is out of bounds for axis 1 with size 3"))
  ∧ (∃ e, @Raised tortuosity_result
            (IndexError "index -4 is out of bounds for axis 1 with size 3")
          = Raised e
       ∧ ((∀ c e', raised c e' ∉ calls_of stripes_library stripes (-4) ∅) →
          exc_class e = "IndexError"
          ∧ (- 2 ^ 63 ≤ -4 < 2 ^ 63 →
             e = IndexError ("index " +:+ pretty (-4)
                             +:+ " is out of bounds for axis 1 with size 3"))))
  ∧ (∀ fd pores values a,
       Ev (set_value_BC fd pores values) a
       ∉ calls_of stripes_library stripes (-4) ∅)
  ∧ (∀ fd a, Ev (run fd) a ∉ calls_of stripes_library stripes (-4) ∅).
Proof.
  assert (Hcol : ¬ (-3 ≤ -4 < 3)) by lia.
  assert (Hax : -4 ≤ ndim stripes - 1) by (vm_compute; discriminate).
  split; [exact Hcol|]. split; [exact Hax|].
  split; [exact below_columns_raises|].
  exact (axis_outside_columns stripes (-4) false ∅ _ _ Hcol Hax
           below_columns_raises).
Defined.

(** X15 on [stripes] with a solver that reports no rate. *)
Lemma empty_rate_array_witness :
  runs (tortuosity stripes 0 false ∅) (calls_of silent_library stripes 0 ∅)
    (Raised (IndexError "index 0 is out of bounds for axis 0 with size 0"))
  ∧ returned (rate solved_fd stripes_outlets) []
    ∈ calls_of silent_library stripes 0 ∅
  ∧ @Raised tortuosity_result
      (IndexError "index 0 is out of bounds for axis 0 with size 0")
    = Raised (IndexError "index 0 is out of bounds for axis 0 with size 0")
  ∧ ∃ t0, calls_of silent_library stripes 0 ∅
          = t0 ++ [returned (rate solved_fd stripes_outlets) []].
Proof.
  split; [exact silent_raises|]. split; [exact silent_outlet_rate|].
  exact (empty_rate_array stripes 0 false ∅ _ _ _ _
           silent_raises silent_outlet_rate).
Defined.

End ExtraWitnesses.
